(** * Notes API: a shallow embedding of [main.py] and its access-control laws

    The service keeps three tables (users, notes, logs) behind an HTTP
    interface.  Every handler of [main.py] is embedded as a function in a
    small state-and-exception monad over the tables; the collaborators that
    the program only calls (the password hasher, the random source, the
    clock, the JWT codec) are taken as an interface, as explicit inputs, or
    as a small symbolic model. *)

From Stdlib Require Import String ZArith List Bool Lia.
Import ListNotations.

Local Open Scope string_scope.
Local Open Scope Z_scope.

(** ** Security settings *)

Definition SECRET_KEY : string := "secret".
Definition ALGORITHM : string := "HS256".
Definition ACCESS_TOKEN_EXPIRE_MINUTES : Z := 30.
Definition API_KEY_NAME : string := "X-API-Key".

(** Instants and durations are counted in whole seconds, the unit of the
    expiry claim of a token. *)
Definition datetime := Z.
Definition timedelta := Z.
Definition minutes (m : Z) : timedelta := 60 * m.

(** ** Role enum *)

Inductive Role := ADMIN | USER.

Module RoleEnum.
Definition value (r : Role) : string :=
  match r with ADMIN => "admin" | USER => "user" end.

(** Validation of a stored string against the enum (what a response model
    does with the [role] column). *)
Definition of_value (s : string) : option Role :=
  if String.eqb s "admin" then Some ADMIN
  else if String.eqb s "user" then Some USER
  else None.
End RoleEnum.

(** ** Database models

    One record per mapped class; the fields are the columns. *)

Module UserDB.
Record row := mk {
  id : Z;
  username : string;
  full_name : string;
  email : string;
  hashed_password : string;
  role : string;
  is_active : bool;
  api_key : option string
}.

Definition with_is_active (b : bool) (u : row) : row :=
  mk (id u) (username u) (full_name u) (email u) (hashed_password u)
     (role u) b (api_key u).

Definition with_hashed_password (h : string) (u : row) : row :=
  mk (id u) (username u) (full_name u) (email u) h
     (role u) (is_active u) (api_key u).

Definition with_role (r : string) (u : row) : row :=
  mk (id u) (username u) (full_name u) (email u) (hashed_password u)
     r (is_active u) (api_key u).
End UserDB.

(** The three columns of a note that a partial update can write are
    nullable: an update body may carry an explicit null. *)
Module NoteDB.
Record row := mk {
  id : Z;
  title : option string;
  content : option string;
  owner : string;
  is_private : option bool
}.
End NoteDB.

Module LogDB.
Record row := mk {
  id : Z;
  timestamp : datetime;
  username : option string;
  endpoint : string;
  method : string;
  status_code : Z
}.
End LogDB.

(** The persistent state: the rows of each table, in row-id order. *)
Record Database := mkDatabase {
  users : list UserDB.row;
  notes : list NoteDB.row;
  logs : list LogDB.row
}.

(** ** Pydantic models *)

Module User.
Record t := mk {
  username : string;
  full_name : string;
  email : string;
  hashed_password : string;
  role : Role;
  is_active : bool;
  api_key : option string
}.
End User.

Module UserCreate.
Record t := mk {
  username : string;
  full_name : string;
  email : string;
  password : string;
  role : Role
}.
End UserCreate.

Module UserUpdateRole.
Record t := mk { role : Role }.
End UserUpdateRole.

Module NoteCreate.
Record t := mk {
  title : string;
  content : string;
  is_private : bool
}.
End NoteCreate.

(** Each field of a partial update is either unset ([None]) or set, possibly
    to an explicit null ([Some None]). *)
Module NoteUpdate.
Record t := mk {
  title : option (option string);
  content : option (option string);
  is_private : option (option bool)
}.

Inductive item :=
| Title (v : option string)
| Content (v : option string)
| IsPrivate (v : option bool).

Definition entry {A} (k : A -> item) (f : option A) : list item :=
  match f with Some v => [k v] | None => [] end.

(** [note_update.dict(exclude_unset=True).items()] *)
Definition dict_exclude_unset (u : t) : list item :=
  entry Title (title u) ++ entry Content (content u)
    ++ entry IsPrivate (is_private u).
End NoteUpdate.

Module Note.
Record t := mk {
  id : Z;
  title : string;
  content : string;
  owner : string;
  is_private : bool
}.
End Note.

(** ** Failures and the handler monad *)

Inductive Failure :=
| HTTPException (status_code : Z) (detail : string)
| IntegrityError
| ResponseValidationError.

Inductive Outcome (A : Type) :=
| Return (a : A)
| Raise (e : Failure).
Arguments Return {A} a.
Arguments Raise {A} e.

(** A handler runs against the committed tables and yields an outcome
    together with the tables as committed when it stops. *)
Definition Handler (A : Type) := Database -> Outcome A * Database.

Definition ret {A} (a : A) : Handler A := fun db => (Return a, db).

Definition raise {A} (e : Failure) : Handler A := fun db => (Raise e, db).

Definition bind {A B} (m : Handler A) (k : A -> Handler B) : Handler B :=
  fun db =>
    match m db with
    | (Return a, db') => k a db'
    | (Raise e, db') => (Raise e, db')
    end.

Declare Scope handler_scope.
Delimit Scope handler_scope with handler.
Notation "x <- m ;; k" := (bind m (fun x => k))
  (at level 100, m at next level, right associativity) : handler_scope.
Local Open Scope handler_scope.

Definition status_of {A} (o : Outcome A) : option Z :=
  match o with
  | Raise (HTTPException s _) => Some s
  | _ => None
  end.

Definition HTTP_400_BAD_REQUEST : Z := 400.
Definition HTTP_401_UNAUTHORIZED : Z := 401.
Definition HTTP_403_FORBIDDEN : Z := 403.
Definition HTTP_404_NOT_FOUND : Z := 404.

(** ** The session: queries and commits *)

(** [.first()] of a filtered query. *)
Definition first {A} (l : list A) : option A := hd_error l.

Definition query_users (p : UserDB.row -> bool) : Handler (list UserDB.row) :=
  fun db => (Return (filter p (users db)), db).

Definition query_notes (p : NoteDB.row -> bool) : Handler (list NoteDB.row) :=
  fun db => (Return (filter p (notes db)), db).

Definition query_logs : Handler (list LogDB.row) :=
  fun db => (Return (logs db), db).

(** An integer primary key left unset takes the largest key in use plus one. *)
Definition next_id (ids : list Z) : Z := Z.succ (fold_right Z.max 0 ids).

Definition opt_eqb (a : option string) (k : string) : bool :=
  match a with Some s => String.eqb s k | None => false end.

(** The unique constraints of the users table, checked when a row is
    inserted: username, email, and (when not null) api_key. *)
Definition violates_unique (new : UserDB.row) (old : UserDB.row) : bool :=
  String.eqb (UserDB.username old) (UserDB.username new)
  || String.eqb (UserDB.email old) (UserDB.email new)
  || match UserDB.api_key new with
     | Some k => opt_eqb (UserDB.api_key old) k
     | None => false
     end.

(** [db.add(new_user); db.commit(); db.refresh(new_user)] for a row built
    without [id] and [is_active]: the key is generated, [is_active] takes its
    column default. *)
Definition add_user (username full_name email hashed_password role : string)
    (api_key : option string) : Handler UserDB.row :=
  fun db =>
    let new_user :=
      UserDB.mk (next_id (map UserDB.id (users db))) username full_name email
                hashed_password role true api_key in
    if existsb (violates_unique new_user) (users db)
    then (Raise IntegrityError, db)
    else (Return new_user,
          mkDatabase (users db ++ [new_user]) (notes db) (logs db)).

(** Attribute writes on a loaded row followed by [db.commit()] and
    [db.refresh(row)]: the row with that primary key is replaced. *)
Definition commit_user (u : UserDB.row) : Handler UserDB.row :=
  fun db =>
    (Return u,
     mkDatabase
       (map (fun r => if Z.eqb (UserDB.id r) (UserDB.id u) then u else r)
            (users db))
       (notes db) (logs db)).

(** [db.delete(user); db.commit()] *)
Definition delete_user_row (u : UserDB.row) : Handler unit :=
  fun db =>
    (Return tt,
     mkDatabase
       (filter (fun r => negb (Z.eqb (UserDB.id r) (UserDB.id u))) (users db))
       (notes db) (logs db)).

Definition add_note (title content : option string) (owner : string)
    (is_private : option bool) : Handler NoteDB.row :=
  fun db =>
    let new_note :=
      NoteDB.mk (next_id (map NoteDB.id (notes db))) title content owner
                is_private in
    (Return new_note,
     mkDatabase (users db) (notes db ++ [new_note]) (logs db)).

Definition commit_note (n : NoteDB.row) : Handler NoteDB.row :=
  fun db =>
    (Return n,
     mkDatabase (users db)
       (map (fun r => if Z.eqb (NoteDB.id r) (NoteDB.id n) then n else r)
            (notes db))
       (logs db)).

Definition delete_note_row (n : NoteDB.row) : Handler unit :=
  fun db =>
    (Return tt,
     mkDatabase (users db)
       (filter (fun r => negb (Z.eqb (NoteDB.id r) (NoteDB.id n))) (notes db))
       (logs db)).

(** [db.add(log_entry); db.commit()]; the timestamp column defaults to the
    time of the insert. *)
Definition add_log (utcnow : datetime) (username : option string)
    (endpoint method : string) (status_code : Z) : Handler unit :=
  fun db =>
    (Return tt,
     mkDatabase (users db) (notes db)
       (logs db ++ [LogDB.mk (next_id (map LogDB.id (logs db))) utcnow username
                             endpoint method status_code])).

(** ** Collaborators *)

(** [pwd_context]: the password hasher, used only through [hash] and
    [verify].  Hashing is salted; the salt is an input. *)
Class CryptContext := {
  hash : string -> string -> string;
  verify : string -> string -> bool;
  verify_hash : forall salt secret, verify secret (hash salt secret) = true
}.

(** What one request draws from the random source. *)
Record Entropy := mkEntropy {
  bcrypt_salt : string;
  token_urlsafe : string
}.

(** The [jwt] package, in a symbolic model: a token string either is not a
    compact serialization at all, or carries a header algorithm, a claim set
    and a signature made under some key.  A signature verifies exactly under
    the key that made it. *)
Module pyjwt.
Record Claims := mkClaims {
  sub : option string;
  exp : option datetime
}.

Inductive Token :=
| Unparsable (raw : string)
| Signed (alg : string) (key : string) (payload : Claims).

Inductive Decoded :=
| Payload (payload : Claims)
| ExpiredSignatureError
| InvalidTokenError.

(** Modelled from the spec: issuing "embeds subject and an absolute expiry
    timestamp" and "signs with a process-wide secret and a fixed algorithm
    identifier". *)
Definition encode (payload : Claims) (key : string) (algorithm : string)
  : Token := Signed algorithm key payload.

(** Modelled from the spec: the package itself is not part of the
    sources.  Validation "fails with Expired if current time >= embedded
    expiry" and is otherwise invalid when the token is not well formed,
    its algorithm is not an accepted one, or its signature does not
    verify under the key. *)
Definition decode (now : datetime) (token : Token) (key : string)
    (algorithms : list string) : Decoded :=
  match token with
  | Unparsable _ => InvalidTokenError
  | Signed alg k payload =>
      if negb (existsb (String.eqb alg) algorithms) then InvalidTokenError
      else if negb (String.eqb k key) then InvalidTokenError
      else match exp payload with
           | Some e => if e <=? now then ExpiredSignatureError
                       else Payload payload
           | None => Payload payload
           end
  end.

(** Truth value of the token as a Python string. *)
Definition nonempty (token : Token) : bool :=
  match token with
  | Unparsable raw => negb (String.eqb raw "")
  | Signed _ _ _ => true
  end.
End pyjwt.

(** ** Utilities *)

Definition verify_password `{CryptContext} (plain_password hashed_password : string)
  : bool := verify plain_password hashed_password.

Definition get_password_hash `{CryptContext} (rnd : Entropy) (password : string)
  : string := hash (bcrypt_salt rnd) password.

(** [if expires_delta:] is the truth value of an optional duration: absent
    and zero are both false. *)
Definition timedelta_truthy (d : option timedelta) : bool :=
  match d with
  | Some delta => negb (delta =? 0)
  | None => false
  end.

Definition create_access_token (utcnow : datetime) (data : pyjwt.Claims)
    (expires_delta : option timedelta) : pyjwt.Token :=
  let expire :=
    match expires_delta with
    | Some delta =>
        if timedelta_truthy expires_delta then utcnow + delta
        else utcnow + minutes 15
    | None => utcnow + minutes 15
    end in
  let to_encode := pyjwt.mkClaims (pyjwt.sub data) (Some expire) in
  pyjwt.encode to_encode SECRET_KEY ALGORITHM.

Definition generate_api_key (rnd : Entropy) : string := token_urlsafe rnd.

(** ** Dependency: the current user *)

(** [if x:] on an optional string keeps [x] only when it is neither absent
    nor empty. *)
Definition truthy_str (s : option string) : option string :=
  match s with
  | Some v => if String.eqb v "" then None else Some v
  | None => None
  end.

Definition truthy_token (t : option pyjwt.Token) : option pyjwt.Token :=
  match t with
  | Some v => if pyjwt.nonempty v then Some v else None
  | None => None
  end.

Definition invalid_credentials : Failure :=
  HTTPException HTTP_401_UNAUTHORIZED "Invalid authentication credentials".

Definition get_current_user (now : datetime) (token : option pyjwt.Token)
    (api_key : option string) : Handler UserDB.row :=
  match truthy_token token with
  | Some token =>
      match pyjwt.decode now token SECRET_KEY [ALGORITHM] with
      | pyjwt.Payload payload =>
          match pyjwt.sub payload with
          | None => raise invalid_credentials
          | Some username =>
              found <- query_users
                         (fun u => String.eqb (UserDB.username u) username) ;;
              match first found with
              | None => raise invalid_credentials
              | Some user =>
                  if negb (UserDB.is_active user)
                  then raise invalid_credentials
                  else ret user
              end
          end
      | pyjwt.ExpiredSignatureError =>
          raise (HTTPException HTTP_401_UNAUTHORIZED "Token has expired")
      | pyjwt.InvalidTokenError => raise invalid_credentials
      end
  | None =>
      match truthy_str api_key with
      | Some api_key =>
          found <- query_users (fun u => opt_eqb (UserDB.api_key u) api_key) ;;
          match first found with
          | None =>
              raise (HTTPException HTTP_403_FORBIDDEN
                                   "Could not validate API key")
          | Some user =>
              if negb (UserDB.is_active user)
              then raise (HTTPException HTTP_403_FORBIDDEN
                                        "Could not validate API key")
              else ret user
          end
      | None =>
          raise (HTTPException HTTP_401_UNAUTHORIZED
                               "No authentication credentials provided")
      end
  end.

(** ** Logging function *)

Definition log_activity (utcnow : datetime) (request_path request_method : string)
    (response_status : Z) (username : option string) : Handler unit :=
  add_log utcnow username request_path request_method response_status.

(** ** Routes: the handler bodies *)

Definition ADMIN_value : string := RoleEnum.value ADMIN.

Definition not_enough_permissions : Failure :=
  HTTPException HTTP_403_FORBIDDEN "Not enough permissions".

Definition register_user `{CryptContext} (user : UserCreate.t) (rnd : Entropy)
  : Handler UserDB.row :=
  found <- query_users
             (fun u => String.eqb (UserDB.username u) (UserCreate.username user)) ;;
  match first found with
  | Some _ => raise (HTTPException HTTP_400_BAD_REQUEST "User already exists")
  | None =>
      let hashed_password := get_password_hash rnd (UserCreate.password user) in
      let api_key := generate_api_key rnd in
      add_user (UserCreate.username user) (UserCreate.full_name user)
               (UserCreate.email user) hashed_password
               (RoleEnum.value (UserCreate.role user)) (Some api_key)
  end.

Record TokenResponse := mkTokenResponse {
  access_token : pyjwt.Token;
  token_type : string;
  login_api_key : option string
}.

Definition login_for_access_token `{CryptContext} (utcnow : datetime)
    (form_username form_password : string) : Handler TokenResponse :=
  found <- query_users (fun u => String.eqb (UserDB.username u) form_username) ;;
  match first found with
  | None =>
      raise (HTTPException HTTP_401_UNAUTHORIZED "Incorrect username or password")
  | Some user =>
      if negb (verify_password form_password (UserDB.hashed_password user))
      then raise (HTTPException HTTP_401_UNAUTHORIZED
                                "Incorrect username or password")
      else
        let access_token_expires := minutes ACCESS_TOKEN_EXPIRE_MINUTES in
        let access_token :=
          create_access_token utcnow
            (pyjwt.mkClaims (Some (UserDB.username user)) None)
            (Some access_token_expires) in
        ret (mkTokenResponse access_token "bearer" (UserDB.api_key user))
  end.

Definition create_note (note : NoteCreate.t) (current_user : UserDB.row)
  : Handler NoteDB.row :=
  add_note (Some (NoteCreate.title note)) (Some (NoteCreate.content note))
           (UserDB.username current_user) (Some (NoteCreate.is_private note)).

(** Truth value of a nullable boolean column. *)
Definition truthy_bool (b : option bool) : bool :=
  match b with Some v => v | None => false end.

Definition visible (current_user : UserDB.row) (note : NoteDB.row) : bool :=
  negb (truthy_bool (NoteDB.is_private note))
  || String.eqb (NoteDB.owner note) (UserDB.username current_user)
  || String.eqb (UserDB.role current_user) ADMIN_value.

Definition get_notes (current_user : UserDB.row) : Handler (list NoteDB.row) :=
  notes <- query_notes (fun _ => true) ;;
  let result := filter (visible current_user) notes in
  ret result.

(** [note.owner != current_user.username and current_user.role != "admin"] *)
Definition not_owner_nor_admin (note : NoteDB.row) (current_user : UserDB.row)
  : bool :=
  negb (String.eqb (NoteDB.owner note) (UserDB.username current_user))
  && negb (String.eqb (UserDB.role current_user) ADMIN_value).

Definition delete_note (note_id : Z) (current_user : UserDB.row)
  : Handler NoteDB.row :=
  found <- query_notes (fun n => Z.eqb (NoteDB.id n) note_id) ;;
  match first found with
  | None => raise (HTTPException HTTP_404_NOT_FOUND "Note not found")
  | Some note =>
      if not_owner_nor_admin note current_user
      then raise not_enough_permissions
      else
        _ <- delete_note_row note ;;
        ret note
  end.

Definition setattr (note : NoteDB.row) (kv : NoteUpdate.item) : NoteDB.row :=
  match kv with
  | NoteUpdate.Title v =>
      NoteDB.mk (NoteDB.id note) v (NoteDB.content note) (NoteDB.owner note)
                (NoteDB.is_private note)
  | NoteUpdate.Content v =>
      NoteDB.mk (NoteDB.id note) (NoteDB.title note) v (NoteDB.owner note)
                (NoteDB.is_private note)
  | NoteUpdate.IsPrivate v =>
      NoteDB.mk (NoteDB.id note) (NoteDB.title note) (NoteDB.content note)
                (NoteDB.owner note) v
  end.

Definition update_note (note_id : Z) (note_update : NoteUpdate.t)
    (current_user : UserDB.row) : Handler NoteDB.row :=
  found <- query_notes (fun n => Z.eqb (NoteDB.id n) note_id) ;;
  match first found with
  | None => raise (HTTPException HTTP_404_NOT_FOUND "Note not found")
  | Some note =>
      if not_owner_nor_admin note current_user
      then raise not_enough_permissions
      else
        let update_data := NoteUpdate.dict_exclude_unset note_update in
        commit_note (fold_left setattr update_data note)
  end.

Definition is_not_admin (current_user : UserDB.row) : bool :=
  negb (String.eqb (UserDB.role current_user) ADMIN_value).

Definition user_not_found : Failure :=
  HTTPException HTTP_404_NOT_FOUND "User not found".

Definition get_logs (current_user : UserDB.row) : Handler (list LogDB.row) :=
  if is_not_admin current_user then raise not_enough_permissions
  else query_logs.

Definition deactivate_user (user_id : Z) (current_user : UserDB.row)
  : Handler UserDB.row :=
  if is_not_admin current_user then raise not_enough_permissions
  else
    found <- query_users (fun u => Z.eqb (UserDB.id u) user_id) ;;
    match first found with
    | None => raise user_not_found
    | Some user => commit_user (UserDB.with_is_active false user)
    end.

Definition reset_password `{CryptContext} (user_id : Z) (new_password : string)
    (rnd : Entropy) (current_user : UserDB.row) : Handler UserDB.row :=
  if is_not_admin current_user then raise not_enough_permissions
  else
    found <- query_users (fun u => Z.eqb (UserDB.id u) user_id) ;;
    match first found with
    | None => raise user_not_found
    | Some user =>
        commit_user
          (UserDB.with_hashed_password (get_password_hash rnd new_password) user)
    end.

Definition update_user_role (user_id : Z) (user_update_role : UserUpdateRole.t)
    (current_user : UserDB.row) : Handler UserDB.row :=
  if is_not_admin current_user then raise not_enough_permissions
  else
    found <- query_users (fun u => Z.eqb (UserDB.id u) user_id) ;;
    match first found with
    | None => raise user_not_found
    | Some user =>
        commit_user
          (UserDB.with_role
             (RoleEnum.value (UserUpdateRole.role user_update_role)) user)
    end.

Definition get_all_users (current_user : UserDB.row)
  : Handler (list UserDB.row) :=
  if is_not_admin current_user then raise not_enough_permissions
  else query_users (fun _ => true).

Definition delete_user (user_name : string) (current_user : UserDB.row)
  : Handler UserDB.row :=
  if is_not_admin current_user then raise not_enough_permissions
  else
    found <- query_users (fun u => String.eqb (UserDB.username u) user_name) ;;
    match first found with
    | None => raise user_not_found
    | Some user =>
        _ <- delete_user_row user ;;
        ret user
    end.

(** ** Response models

    A route declared with [response_model=M] answers with the fields of [M]
    read off the returned row, and fails when a field does not validate. *)

Definition User_validate (u : UserDB.row) : option User.t :=
  match RoleEnum.of_value (UserDB.role u) with
  | Some r =>
      Some (User.mk (UserDB.username u) (UserDB.full_name u) (UserDB.email u)
                    (UserDB.hashed_password u) r (UserDB.is_active u)
                    (UserDB.api_key u))
  | None => None
  end.

Definition Note_validate (n : NoteDB.row) : option Note.t :=
  match NoteDB.title n, NoteDB.content n, NoteDB.is_private n with
  | Some t, Some c, Some p => Some (Note.mk (NoteDB.id n) t c (NoteDB.owner n) p)
  | _, _, _ => None
  end.

Fixpoint validate_all {R V} (validate : R -> option V) (rows : list R)
  : option (list V) :=
  match rows with
  | [] => Some []
  | r :: rest =>
      match validate r, validate_all validate rest with
      | Some v, Some vs => Some (v :: vs)
      | _, _ => None
      end
  end.

Definition response_model {R V} (validate : R -> option V) (h : Handler R)
  : Handler V :=
  r <- h ;;
  match validate r with
  | Some v => ret v
  | None => raise ResponseValidationError
  end.

(** The JSON object sent for a [User]. *)
Inductive JSON :=
| JNull
| JBool (b : bool)
| JString (s : string).

Definition User_json (u : User.t) : list (string * JSON) :=
  [ ("username", JString (User.username u));
    ("full_name", JString (User.full_name u));
    ("email", JString (User.email u));
    ("hashed_password", JString (User.hashed_password u));
    ("role", JString (RoleEnum.value (User.role u)));
    ("is_active", JBool (User.is_active u));
    ("api_key", match User.api_key u with
                | Some k => JString k
                | None => JNull
                end) ].

(** ** Routes: dependencies, handler, response model *)

(** What the two security dependencies of [get_current_user] hand over:
    the bearer token read by [oauth2_scheme] and the value of the
    [X-API-Key] header read by [api_key_header]. *)
Record Credentials := mkCredentials {
  bearer : option pyjwt.Token;
  x_api_key : option string
}.

Definition authenticated {A} (now : datetime) (c : Credentials)
    (endpoint : UserDB.row -> Handler A) : Handler A :=
  current_user <- get_current_user now (bearer c) (x_api_key c) ;;
  endpoint current_user.

Definition POST_register `{CryptContext} (user : UserCreate.t) (rnd : Entropy)
  : Handler User.t :=
  response_model User_validate (register_user user rnd).

Definition GET_users (now : datetime) (c : Credentials)
  : Handler (list User.t) :=
  response_model (validate_all User_validate)
                 (authenticated now c get_all_users).

Definition PUT_users_deactivate (now : datetime) (c : Credentials)
    (user_id : Z) : Handler User.t :=
  response_model User_validate
                 (authenticated now c (deactivate_user user_id)).

Definition PUT_users_reset_password `{CryptContext} (now : datetime)
    (c : Credentials) (user_id : Z) (new_password : string) (rnd : Entropy)
  : Handler User.t :=
  response_model User_validate
                 (authenticated now c (reset_password user_id new_password rnd)).

Definition PUT_users_update_role (now : datetime) (c : Credentials)
    (user_id : Z) (body : UserUpdateRole.t) : Handler User.t :=
  response_model User_validate
                 (authenticated now c (update_user_role user_id body)).

Definition DELETE_users (now : datetime) (c : Credentials)
    (user_name : string) : Handler User.t :=
  response_model User_validate (authenticated now c (delete_user user_name)).

Definition POST_notes (now : datetime) (c : Credentials) (note : NoteCreate.t)
  : Handler Note.t :=
  response_model Note_validate (authenticated now c (create_note note)).



Definition DELETE_notes (now : datetime) (c : Credentials) (note_id : Z)
  : Handler Note.t :=
  response_model Note_validate (authenticated now c (delete_note note_id)).

(** ** Middleware *)

(** The request as the logging middleware reads it.  [authorization] is the
    Authorization header, taken as the token it spells once every
    occurrence of "Bearer " is removed from it. *)
Record Request := mkRequest {
  url_path : string;
  http_method : string;
  authorization : option pyjwt.Token
}.

(** [log_requests], from the point where [call_next] has returned a response
    with status [response_status_code]. *)
Definition log_requests (now : datetime) (request : Request)
    (response_status_code : Z) : Handler Z :=
  let username :=
    match truthy_token (authorization request) with
    | Some token =>
        match pyjwt.decode now token SECRET_KEY [ALGORITHM] with
        | pyjwt.Payload payload => pyjwt.sub payload
        | pyjwt.ExpiredSignatureError => None
        | pyjwt.InvalidTokenError => None
        end
    | None => None
    end in
  _ <- log_activity now (url_path request) (http_method request)
                    response_status_code username ;;
  ret response_status_code.

(** ** Integrity of the tables

    What the primary keys and unique constraints of the schema guarantee of
    any stored state. *)

Definition api_keys (l : list UserDB.row) : list string :=
  flat_map (fun u => match UserDB.api_key u with
                     | Some k => [k]
                     | None => []
                     end) l.

Record consistent (db : Database) : Prop := mkConsistent {
  user_ids_unique : NoDup (map UserDB.id (users db));
  usernames_unique : NoDup (map UserDB.username (users db));
  emails_unique : NoDup (map UserDB.email (users db));
  api_keys_unique : NoDup (api_keys (users db));
  note_ids_unique : NoDup (map NoteDB.id (notes db))
}.

(** ** Vocabulary of the properties *)

(** The five admin-only operations on users, with their arguments. *)
Inductive UserOperation :=
| ListUsers
| Deactivate (user_id : Z)
| ResetPassword (user_id : Z) (new_password : string) (rnd : Entropy)
| ChangeRole (user_id : Z) (body : UserUpdateRole.t)
| DeleteByUsername (user_name : string).

Definition forget {A} (o : Outcome A) : Outcome unit :=
  match o with
  | Return _ => Return tt
  | Raise e => Raise e
  end.

(** The outcome of running one of them as [current_user]. *)
Definition user_operation_outcome {crypt : CryptContext} (op : UserOperation)
    (current_user : UserDB.row) (db : Database) : Outcome unit :=
  match op with
  | ListUsers => forget (fst (get_all_users current_user db))
  | Deactivate i => forget (fst (deactivate_user i current_user db))
  | ResetPassword i p rnd =>
      forget (fst (reset_password i p rnd current_user db))
  | ChangeRole i b => forget (fst (update_user_role i b current_user db))
  | DeleteByUsername n => forget (fst (delete_user n current_user db))
  end.

(** The key of a note together with its owner. *)
Definition id_owner (n : NoteDB.row) : Z * string :=
  (NoteDB.id n, NoteDB.owner n).

(** No credential of [U] resolves in [db] at time [now]: a token that
    decodes (validly signed, not expired) with subject [U] is refused, and so
    is the API key of [U] when sent without a token. *)
Definition no_credential_resolves (now : datetime) (db : Database)
    (U : UserDB.row) : Prop :=
  (forall tok payload api_key,
     pyjwt.decode now tok SECRET_KEY [ALGORITHM] = pyjwt.Payload payload ->
     pyjwt.sub payload = Some (UserDB.username U) ->
     get_current_user now (Some tok) api_key db
       = (Raise (HTTPException 401 "Invalid authentication credentials"), db))
  /\ (forall token,
        truthy_token token = None ->
        exists e,
          get_current_user now token (UserDB.api_key U) db = (Raise e, db)
          /\ (forall k, UserDB.api_key U = Some k -> k <> "" ->
                e = HTTPException 403 "Could not validate API key"))
  /\ (forall token api_key u,
        fst (get_current_user now token api_key db) = Return u ->
        UserDB.username u <> UserDB.username U).

(** The JSON object made of the seven columns of a stored row that the
    [User] model declares: every column but [id]. *)
Definition full_view (r : UserDB.row) : list (string * JSON) :=
  [ ("username", JString (UserDB.username r));
    ("full_name", JString (UserDB.full_name r));
    ("email", JString (UserDB.email r));
    ("hashed_password", JString (UserDB.hashed_password r));
    ("role", JString (UserDB.role r));
    ("is_active", JBool (UserDB.is_active r));
    ("api_key", match UserDB.api_key r with
                | Some k => JString k
                | None => JNull
                end) ].

Definition is_view_of (r : UserDB.row) (v : User.t) : Prop :=
  User_json v = full_view r.

(** Every stored role is one of the two values of the enum. *)
Definition roles_valid (db : Database) : Prop :=
  forall u, In u (users db) -> RoleEnum.of_value (UserDB.role u) <> None.

(** ** A sample deployment, for running the model *)

(** A hasher that satisfies the interface. *)
Definition sample_crypt : CryptContext :=
  {| hash := fun salt secret => "$" ++ secret;
     verify := fun secret hashed => String.eqb ("$" ++ secret) hashed;
     verify_hash := fun _ secret => String.eqb_refl ("$" ++ secret) |}.

Definition root : UserDB.row :=
  UserDB.mk 1 "root" "Root" "root@example.org" "$2b$12$rootdigest" "admin"
            true (Some "key-root").

Definition alice : UserDB.row :=
  UserDB.mk 2 "alice" "Alice" "alice@example.org" "$2b$12$alicedigest" "user"
            true (Some "key-alice").

Definition carol : UserDB.row :=
  UserDB.mk 3 "carol" "Carol" "carol@example.org" "$2b$12$caroldigest" "user"
            false (Some "key-carol").

Definition alice_note : NoteDB.row :=
  NoteDB.mk 1 (Some "x") (Some "body") "alice" (Some true).

Definition carol_note : NoteDB.row :=
  NoteDB.mk 2 (Some "y") (Some "text") "carol" (Some false).

Definition sample_db : Database :=
  mkDatabase [root; alice; carol] [alice_note; carol_note] [].

Definition token_for (username : string) (issued : datetime) : pyjwt.Token :=
  create_access_token issued (pyjwt.mkClaims (Some username) None)
                      (Some (minutes ACCESS_TOKEN_EXPIRE_MINUTES)).

Definition root_credentials : Credentials :=
  mkCredentials (Some (token_for "root" 0)) None.

Definition alice_deactivated_view : User.t :=
  User.mk "alice" "Alice" "alice@example.org" "$2b$12$alicedigest" USER false
          (Some "key-alice").

Definition sample_after_deactivate : Database :=
  mkDatabase [root; UserDB.with_is_active false alice; carol]
             [alice_note; carol_note] [].


Definition carol_password : string := "2b$12$caroldigest".

Definition dave_form : UserCreate.t :=
  UserCreate.mk "dave" "Dave" "dave@example.org" "pw" ADMIN.

Definition dave_entropy : Entropy := mkEntropy "salt" "key-dave".

Definition dave : UserDB.row :=
  UserDB.mk 4 "dave" "Dave" "dave@example.org" "$pw" "admin" true
            (Some "key-dave").

Definition sample_after_dave : Database :=
  mkDatabase [root; alice; carol; dave] [alice_note; carol_note] [].

(** * Properties *)

(** ** Queries *)

Lemma first_filter_Some {A} (p : A -> bool) (l : list A) (x : A) :
  first (filter p l) = Some x -> In x l /\ p x = true.
Proof.
  unfold first. intros Hhd.
  assert (Hin : In x (filter p l)).
  { destruct (filter p l) as [|y rest]; [discriminate|].
    simpl in Hhd. injection Hhd as ->. now left. }
  now apply filter_In in Hin.
Qed.

Lemma first_filter_None {A} (p : A -> bool) (l : list A) :
  first (filter p l) = None -> forall x, In x l -> p x = false.
Proof.
  unfold first. intros Hhd x Hx.
  destruct (p x) eqn:Hp; [|reflexivity].
  assert (Hin : In x (filter p l)) by (apply filter_In; auto).
  destruct (filter p l); [contradiction | discriminate].
Qed.

Lemma first_filter_In {A} (p : A -> bool) (l : list A) (x : A) :
  In x l -> p x = true -> exists y, first (filter p l) = Some y.
Proof.
  intros Hx Hp. destruct (first (filter p l)) as [y|] eqn:Hf; [eauto|].
  rewrite (first_filter_None p l Hf x Hx) in Hp. discriminate.
Qed.

Lemma first_filter_the {A} (p : A -> bool) (l : list A) (x : A) :
  In x l -> p x = true ->
  (forall y, In y l -> p y = true -> y = x) ->
  first (filter p l) = Some x.
Proof.
  intros Hx Hp Huniq.
  destruct (first_filter_In p l x Hx Hp) as [y Hy].
  destruct (first_filter_Some p l y Hy) as [Hin Hpy].
  now rewrite Hy, (Huniq y Hin Hpy).
Qed.

Lemma filter_all {A} (l : list A) : filter (fun _ => true) l = l.
Proof. induction l as [|a l IH]; simpl; [reflexivity | now rewrite IH]. Qed.

(** ** Keys *)

Lemma NoDup_map_eq {A B} (f : A -> B) (l : list A) (a b : A) :
  NoDup (map f l) -> In a l -> In b l -> f a = f b -> a = b.
Proof.
  induction l as [|x l IH]; simpl; [tauto|].
  intros Hnd Ha Hb Hab. inversion Hnd as [|? ? Hnotin Hnd']; subst.
  destruct Ha as [-> | Ha], Hb as [-> | Hb]; auto.
  - exfalso. apply Hnotin. rewrite Hab. now apply in_map.
  - exfalso. apply Hnotin. rewrite <- Hab. now apply in_map.
Qed.

Lemma in_api_keys (l : list UserDB.row) (k : string) :
  In k (api_keys l) <-> exists u, In u l /\ UserDB.api_key u = Some k.
Proof.
  unfold api_keys. rewrite in_flat_map. split; intros [u [Hu Hk]]; exists u.
  - split; [assumption|].
    destruct (UserDB.api_key u); simpl in Hk; [|contradiction].
    destruct Hk as [-> | []]. reflexivity.
  - split; [assumption|]. rewrite Hk. now left.
Qed.

Lemma api_keys_eq (l : list UserDB.row) (a b : UserDB.row) (k : string) :
  NoDup (api_keys l) -> In a l -> In b l ->
  UserDB.api_key a = Some k -> UserDB.api_key b = Some k -> a = b.
Proof.
  induction l as [|x l IH]; simpl; [tauto|].
  intros Hnd Ha Hb Hka Hkb.
  change (api_keys (x :: l)) with
    (match UserDB.api_key x with Some k => [k] | None => [] end ++ api_keys l)
    in Hnd.
  assert (Hnd' : NoDup (api_keys l)).
  { destruct (UserDB.api_key x); simpl in Hnd; [now inversion Hnd | assumption]. }
  assert (Hfresh : forall y, In y l -> UserDB.api_key y = Some k ->
                             UserDB.api_key x = Some k -> False).
  { intros y Hy Hky Hkx. rewrite Hkx in Hnd. simpl in Hnd.
    inversion Hnd as [|? ? Hnotin _]; subst.
    apply Hnotin, in_api_keys. eauto. }
  destruct Ha as [-> | Ha], Hb as [-> | Hb]; auto.
  - exfalso; eauto.
  - exfalso; eauto.
Qed.

Lemma next_id_above (ids : list Z) (i : Z) : In i ids -> i < next_id ids.
Proof.
  unfold next_id. induction ids as [|j ids IH]; simpl; [tauto|].
  intros [-> | Hi]; [lia|]. specialize (IH Hi). lia.
Qed.

Lemma next_id_fresh (ids : list Z) : ~ In (next_id ids) ids.
Proof. intros Hin. apply next_id_above in Hin. lia. Qed.

Lemma map_replace_same {A B} (f : A -> B) (g : A -> A) (l : list A) :
  (forall r, In r l -> f (g r) = f r) -> map f (map g l) = map f l.
Proof.
  intros Hg. rewrite map_map. apply map_ext_in. exact Hg.
Qed.

Lemma api_keys_replace_same (g : UserDB.row -> UserDB.row) (l : list UserDB.row) :
  (forall r, In r l -> UserDB.api_key (g r) = UserDB.api_key r) ->
  api_keys (map g l) = api_keys l.
Proof.
  induction l as [|x l IH]; simpl; [reflexivity|].
  intros Hg. unfold api_keys in *. simpl.
  rewrite (Hg x (or_introl eq_refl)). f_equal. apply IH.
  intros r Hr. apply Hg. now right.
Qed.

(** Rewriting one row in place keeps the tables consistent as long as the
    key columns of the row are left alone. *)
Lemma commit_user_consistent (db : Database) (u0 u : UserDB.row) :
  consistent db -> In u0 (users db) ->
  UserDB.id u = UserDB.id u0 ->
  UserDB.username u = UserDB.username u0 ->
  UserDB.email u = UserDB.email u0 ->
  UserDB.api_key u = UserDB.api_key u0 ->
  consistent (snd (commit_user u db)).
Proof.
  intros [Hid Hname Hmail Hkey Hnote] Hin Eid Ename Email Ekey.
  assert (Hsame : forall r, In r (users db) ->
            UserDB.id r = UserDB.id u -> r = u0).
  { intros r Hr Er. apply (NoDup_map_eq UserDB.id (users db)); auto.
    congruence. }
  unfold commit_user; simpl. constructor; simpl; try assumption.
  - rewrite map_replace_same; [assumption|].
    intros r Hr. destruct (Z.eqb_spec (UserDB.id r) (UserDB.id u)) as [E|E];
      [symmetry; exact E | reflexivity].
  - rewrite map_replace_same; [assumption|].
    intros r Hr. destruct (Z.eqb_spec (UserDB.id r) (UserDB.id u)) as [E|E];
      [|reflexivity].
    rewrite (Hsame r Hr E). exact Ename.
  - rewrite map_replace_same; [assumption|].
    intros r Hr. destruct (Z.eqb_spec (UserDB.id r) (UserDB.id u)) as [E|E];
      [|reflexivity].
    rewrite (Hsame r Hr E). exact Email.
  - rewrite api_keys_replace_same; [assumption|].
    intros r Hr. destruct (Z.eqb_spec (UserDB.id r) (UserDB.id u)) as [E|E];
      [|reflexivity].
    rewrite (Hsame r Hr E). exact Ekey.
Qed.

(** After the commit the row is the one stored under its key. *)
Lemma commit_user_stored (db : Database) (u0 u : UserDB.row) :
  In u0 (users db) -> UserDB.id u = UserDB.id u0 ->
  In u (users (snd (commit_user u db))).
Proof.
  intros Hin Eid. unfold commit_user; simpl.
  apply in_map_iff. exists u0. split; [|assumption].
  rewrite <- Eid, Z.eqb_refl. reflexivity.
Qed.

(** ** The constraints hold in every reachable state *)

Lemma NoDup_map_filter {K R} (key : R -> K) (keep : R -> bool) (rows : list R) :
  NoDup (map key rows) -> NoDup (map key (filter keep rows)).
Proof.
  induction rows as [|x rows IH]; simpl; [auto|].
  intros Hnd. inversion Hnd as [|? ? Hnotin Hnd']; subst.
  destruct (keep x); simpl; [|auto].
  constructor; [|auto].
  intros Hin. apply Hnotin. apply in_map_iff in Hin.
  destruct Hin as [y [Hy Hin]]. apply filter_In in Hin.
  apply in_map_iff. exists y. tauto.
Qed.

Lemma NoDup_map_snoc {A B} (f : A -> B) (l : list A) (x : A) :
  NoDup (map f l) -> ~ In (f x) (map f l) -> NoDup (map f (l ++ [x])).
Proof.
  intros Hnd Hfresh. rewrite map_app. simpl.
  apply NoDup_rev in Hnd. rewrite <- (rev_involutive (map f l ++ [f x])).
  apply NoDup_rev. rewrite rev_app_distr. simpl.
  constructor; [|assumption].
  intros Hin. apply Hfresh. now apply in_rev.
Qed.

Lemma api_keys_app (l1 l2 : list UserDB.row) :
  api_keys (l1 ++ l2) = (api_keys l1 ++ api_keys l2)%list.
Proof. unfold api_keys. apply flat_map_app. Qed.

Lemma NoDup_snoc {A} (l : list A) (x : A) :
  NoDup l -> ~ In x l -> NoDup (l ++ [x]).
Proof.
  intros Hnd Hfresh. rewrite <- (map_id (l ++ [x])).
  apply NoDup_map_snoc; rewrite map_id; assumption.
Qed.

Lemma api_keys_cons (x : UserDB.row) (l : list UserDB.row) :
  api_keys (x :: l)
  = (match UserDB.api_key x with Some k => [k] | None => [] end
     ++ api_keys l)%list.
Proof. reflexivity. Qed.

Lemma NoDup_api_keys_filter (p : UserDB.row -> bool) (l : list UserDB.row) :
  NoDup (api_keys l) -> NoDup (api_keys (filter p l)).
Proof.
  induction l as [|x l IH]; [simpl; auto|].
  rewrite api_keys_cons. intros Hnd.
  assert (Hnd' : NoDup (api_keys l)).
  { destruct (UserDB.api_key x); simpl in Hnd; [now inversion Hnd | assumption]. }
  cbn [filter]. destruct (p x); [|auto].
  rewrite api_keys_cons.
  destruct (UserDB.api_key x) as [k|]; simpl in *; [|auto].
  inversion Hnd as [|? ? Hnotin _]; subst.
  constructor; [|auto].
  intros Hin. apply Hnotin. apply in_api_keys in Hin.
  destruct Hin as [u [Hu Hk]]. apply filter_In in Hu.
  apply in_api_keys. exists u. tauto.
Qed.

Lemma existsb_false {A} (f : A -> bool) (l : list A) :
  existsb f l = false -> forall x, In x l -> f x = false.
Proof.
  intros Hex x Hx. destruct (f x) eqn:Hf; [|reflexivity].
  rewrite <- Hex. symmetry. apply existsb_exists. eauto.
Qed.

Lemma add_user_consistent username full_name email hashed_password role api_key
    db new db' :
  consistent db ->
  add_user username full_name email hashed_password role api_key db
    = (Return new, db') ->
  consistent db'.
Proof.
  intros [Hid Hname Hmail Hkey Hnote]. unfold add_user.
  destruct (existsb _ _) eqn:Hex; [discriminate|].
  intros E. injection E as <- <-.
  pose proof (existsb_false _ _ Hex) as Hfresh.
  constructor; simpl; try assumption.
  - apply NoDup_map_snoc; [assumption|]. simpl. apply next_id_fresh.
  - apply NoDup_map_snoc; [assumption|]. simpl. intros Hin.
    apply in_map_iff in Hin. destruct Hin as [old [Heq Hold]].
    specialize (Hfresh old Hold). unfold violates_unique in Hfresh. simpl in Hfresh.
    apply orb_false_iff in Hfresh. destruct Hfresh as [Hfresh _].
    apply orb_false_iff in Hfresh. destruct Hfresh as [Hfresh _].
    apply String.eqb_neq in Hfresh. contradiction.
  - apply NoDup_map_snoc; [assumption|]. simpl. intros Hin.
    apply in_map_iff in Hin. destruct Hin as [old [Heq Hold]].
    specialize (Hfresh old Hold). unfold violates_unique in Hfresh. simpl in Hfresh.
    apply orb_false_iff in Hfresh. destruct Hfresh as [Hfresh _].
    apply orb_false_iff in Hfresh. destruct Hfresh as [_ Hfresh].
    apply String.eqb_neq in Hfresh. contradiction.
  - rewrite api_keys_app. unfold api_keys at 2. simpl.
    destruct api_key as [k|]; simpl; [|now rewrite app_nil_r].
    apply NoDup_snoc; [assumption|]. intros Hin.
    apply in_api_keys in Hin. destruct Hin as [old [Hold Hk]].
    specialize (Hfresh old Hold). unfold violates_unique in Hfresh. simpl in Hfresh.
    apply orb_false_iff in Hfresh. destruct Hfresh as [_ Hfresh].
    unfold opt_eqb in Hfresh. rewrite Hk, String.eqb_refl in Hfresh.
    discriminate.
Qed.

Lemma delete_user_row_consistent u db :
  consistent db -> consistent (snd (delete_user_row u db)).
Proof.
  intros [Hid Hname Hmail Hkey Hnote]. unfold delete_user_row.
  constructor; simpl; try assumption.
  - now apply NoDup_map_filter.
  - now apply NoDup_map_filter.
  - now apply NoDup_map_filter.
  - now apply NoDup_api_keys_filter.
Qed.

Lemma add_note_consistent title content owner is_private db :
  consistent db ->
  consistent (snd (add_note title content owner is_private db)).
Proof.
  intros [Hid Hname Hmail Hkey Hnote]. unfold add_note.
  constructor; simpl; try assumption.
  apply NoDup_map_snoc; [assumption|]. simpl. apply next_id_fresh.
Qed.

Lemma commit_note_consistent n db :
  consistent db -> consistent (snd (commit_note n db)).
Proof.
  intros [Hid Hname Hmail Hkey Hnote]. unfold commit_note.
  constructor; simpl; try assumption.
  rewrite map_replace_same; [assumption|].
  intros r _. destruct (Z.eqb_spec (NoteDB.id r) (NoteDB.id n)) as [E|E];
    [symmetry; exact E | reflexivity].
Qed.

Lemma delete_note_row_consistent n db :
  consistent db -> consistent (snd (delete_note_row n db)).
Proof.
  intros [Hid Hname Hmail Hkey Hnote]. unfold delete_note_row.
  constructor; simpl; try assumption. now apply NoDup_map_filter.
Qed.

Lemma empty_consistent : consistent (mkDatabase [] [] []).
Proof. constructor; simpl; constructor. Qed.

Lemma sample_db_consistent : consistent sample_db.
Proof.
  constructor; simpl;
    repeat (constructor; [simpl; intuition discriminate|]); constructor.
Qed.

(** ** Credential resolution *)

Lemma truthy_token_Some (tok : pyjwt.Token) :
  pyjwt.nonempty tok = true -> truthy_token (Some tok) = Some tok.
Proof. intros Hne. simpl. now rewrite Hne. Qed.

(** On the bearer path the API key is never read. *)
Lemma bearer_path_ignores_api_key now tok k1 k2 db :
  pyjwt.nonempty tok = true ->
  get_current_user now (Some tok) k1 db = get_current_user now (Some tok) k2 db.
Proof.
  intros Hne. unfold get_current_user.
  rewrite (truthy_token_Some tok Hne). reflexivity.
Qed.

(** Every failure of the bearer path is a 401. *)
Lemma bearer_path_failures now tok k db e :
  pyjwt.nonempty tok = true ->
  fst (get_current_user now (Some tok) k db) = Raise e ->
  exists detail, e = HTTPException HTTP_401_UNAUTHORIZED detail.
Proof.
  intros Hne. unfold get_current_user.
  rewrite (truthy_token_Some tok Hne).
  destruct (pyjwt.decode now tok SECRET_KEY [ALGORITHM]) as [payload| |];
    simpl.
  - destruct (pyjwt.sub payload) as [name|]; simpl.
    + unfold bind, query_users.
      destruct (first _) as [user|]; simpl.
      * destruct (UserDB.is_active user); simpl; intros E;
          [discriminate | injection E as <-; eexists; reflexivity].
      * intros E; injection E as <-; eexists; reflexivity.
    + intros E; injection E as <-; eexists; reflexivity.
  - intros E; injection E as <-; eexists; reflexivity.
  - intros E; injection E as <-; eexists; reflexivity.
Qed.

(** The API-key path, reached only without a bearer token. *)
Lemma api_key_path_rejects now token k db :
  truthy_token token = None -> k <> "" ->
  (forall u, In u (users db) -> UserDB.api_key u = Some k ->
             UserDB.is_active u = false) ->
  get_current_user now token (Some k) db =
    (Raise (HTTPException HTTP_403_FORBIDDEN "Could not validate API key"), db).
Proof.
  intros Htok Hk Hall. unfold get_current_user. rewrite Htok. simpl.
  destruct (String.eqb_spec k "") as [E|_]; [contradiction|].
  unfold bind, query_users.
  destruct (first _) as [user|] eqn:Hfirst; [|reflexivity].
  apply first_filter_Some in Hfirst. destruct Hfirst as [Hin Hkey].
  unfold opt_eqb in Hkey.
  destruct (UserDB.api_key user) as [k'|] eqn:Hk'; [|discriminate].
  apply String.eqb_eq in Hkey. subst k'.
  rewrite (Hall user Hin Hk'). reflexivity.
Qed.

Lemma api_key_path_accepts now token k db u :
  truthy_token token = None -> k <> "" -> NoDup (api_keys (users db)) ->
  In u (users db) -> UserDB.api_key u = Some k -> UserDB.is_active u = true ->
  get_current_user now token (Some k) db = (Return u, db).
Proof.
  intros Htok Hk Hnd Hin Hkey Hact. unfold get_current_user. rewrite Htok.
  simpl. destruct (String.eqb_spec k "") as [E|_]; [contradiction|].
  unfold bind, query_users.
  rewrite (first_filter_the _ (users db) u Hin).
  - now rewrite Hact.
  - unfold opt_eqb. rewrite Hkey. apply String.eqb_refl.
  - intros y Hy Hp. unfold opt_eqb in Hp.
    destruct (UserDB.api_key y) as [k'|] eqn:Hk'; [|discriminate].
    apply String.eqb_eq in Hp. subst k'.
    now apply (api_keys_eq (users db) y u k).
Qed.

(** C3.  A request that carries a bearer token resolves exactly as the same
    request without its API key: with a token present (a non-empty string,
    the test the resolver itself applies) the API key is ignored, and the
    API key decides only when no token is present. *)
Theorem C3_bearer_token_takes_precedence
    (now : datetime) (token : option pyjwt.Token) (api_key : option string)
    (db : Database) :
  (forall tok, token = Some tok -> pyjwt.nonempty tok = true ->
     get_current_user now token api_key db
     = get_current_user now token None db)
  /\ (truthy_token token = None ->
        get_current_user now token api_key db
        = get_current_user now None api_key db).
Proof.
  split.
  - intros tok -> Hne. now apply bearer_path_ignores_api_key.
  - intros Habsent. unfold get_current_user. now rewrite Habsent.
Qed.

Lemma C3_witness :
  get_current_user 60 (Some (token_for "alice" 0)) (Some "key-root") sample_db
  = get_current_user 60 (Some (token_for "alice" 0)) None sample_db
  /\ fst (get_current_user 60 (Some (token_for "alice" 0)) (Some "key-root")
            sample_db) = Return alice
  /\ get_current_user 60 (Some (pyjwt.Unparsable "")) (Some "key-root") sample_db
     = get_current_user 60 None (Some "key-root") sample_db.
Proof.
  split; [|split].
  - apply (proj1 (C3_bearer_token_takes_precedence
                    60 (Some (token_for "alice" 0)) (Some "key-root") sample_db)
                 (token_for "alice" 0)); reflexivity.
  - reflexivity.
  - apply (proj2 (C3_bearer_token_takes_precedence
                    60 (Some (pyjwt.Unparsable "")) (Some "key-root") sample_db));
      reflexivity.
Defined.

(** C6.  Without a bearer token, a presented API key that belongs to no
    user, or only to an inactive one, is refused with 403; every failure on
    the bearer path is a 401; so the two paths never fail alike. *)
Theorem C6_failure_kinds_of_the_two_paths
    (now : datetime) (token : option pyjwt.Token) (api_key : option string)
    (db : Database) :
  (forall k, truthy_token token = None -> api_key = Some k -> k <> "" ->
     (forall u, In u (users db) -> UserDB.api_key u = Some k ->
                UserDB.is_active u = false) ->
     get_current_user now token api_key db
     = (Raise (HTTPException 403 "Could not validate API key"), db))
  /\ (forall tok e, token = Some tok -> pyjwt.nonempty tok = true ->
        fst (get_current_user now token api_key db) = Raise e ->
        exists detail, e = HTTPException 401 detail)
  /\ (forall tok k token' api_key' db',
        token = Some tok -> pyjwt.nonempty tok = true ->
        truthy_token token' = None -> api_key' = Some k -> k <> "" ->
        (forall u, In u (users db') -> UserDB.api_key u = Some k ->
                   UserDB.is_active u = false) ->
        forall e, fst (get_current_user now token api_key db) = Raise e ->
        fst (get_current_user now token' api_key' db') <> Raise e).
Proof.
  split; [|split].
  - intros k Htok -> Hk Hall. now apply api_key_path_rejects.
  - intros tok e -> Hne Hfail. now apply (bearer_path_failures now tok api_key db).
  - intros tok k token' api_key' db' -> Hne Htok' -> Hk Hall e Hfail.
    destruct (bearer_path_failures now tok api_key db e Hne Hfail) as [d ->].
    rewrite (api_key_path_rejects now token' k db' Htok' Hk Hall). simpl.
    unfold HTTP_401_UNAUTHORIZED, HTTP_403_FORBIDDEN. intros E.
    injection E as E _. discriminate.
Qed.

Lemma C6_witness :
  get_current_user 60 None (Some "key-carol") sample_db
  = (Raise (HTTPException 403 "Could not validate API key"), sample_db)
  /\ get_current_user 60 None (Some "no-such-key") sample_db
     = (Raise (HTTPException 403 "Could not validate API key"), sample_db)
  /\ exists detail,
       invalid_credentials = HTTPException 401 detail.
Proof.
  split; [|split].
  - apply (proj1 (C6_failure_kinds_of_the_two_paths
                    60 None (Some "key-carol") sample_db) "key-carol");
      try reflexivity; [discriminate|].
    intros u [<- | [<- | [<- | []]]]; simpl; intros E;
      [discriminate | discriminate | reflexivity].
  - apply (proj1 (C6_failure_kinds_of_the_two_paths
                    60 None (Some "no-such-key") sample_db) "no-such-key");
      try reflexivity; [discriminate|].
    intros u [<- | [<- | [<- | []]]]; simpl; intros E; discriminate.
  - apply (proj1 (proj2 (C6_failure_kinds_of_the_two_paths
                    60 (Some (token_for "carol" 0)) None sample_db))
                 (token_for "carol" 0)); reflexivity.
Defined.

(** ** Registration *)

(** C7.  Registering a username that is already stored fails with 400
    "User already exists", and the tables are left exactly as they were: no
    row is added and no stored row changes. *)
Theorem C7_register_existing_username_rejected
    (crypt : CryptContext) (user : UserCreate.t) (rnd : Entropy)
    (db : Database) :
  (exists u, In u (users db)
             /\ UserDB.username u = UserCreate.username user) ->
  register_user user rnd db
    = (Raise (HTTPException 400 "User already exists"), db)
  /\ POST_register user rnd db
    = (Raise (HTTPException 400 "User already exists"), db).
Proof.
  intros [u [Hin Hname]].
  assert (Hreg : register_user user rnd db
            = (Raise (HTTPException 400 "User already exists"), db)).
  { unfold register_user, bind, query_users.
    destruct (first_filter_In
                (fun r => String.eqb (UserDB.username r) (UserCreate.username user))
                (users db) u Hin) as [y Hy].
    - apply String.eqb_eq. exact Hname.
    - rewrite Hy. reflexivity. }
  split; [exact Hreg|].
  unfold POST_register, response_model, bind. now rewrite Hreg.
Qed.

Lemma C7_witness :
  register_user (H := sample_crypt)
    (UserCreate.mk "alice" "Mallory" "mallory@example.org" "pw" ADMIN)
    (mkEntropy "salt" "key-mallory") sample_db
  = (Raise (HTTPException 400 "User already exists"), sample_db).
Proof.
  apply (C7_register_existing_username_rejected sample_crypt).
  exists alice. split; [simpl; auto | reflexivity].
Defined.

(** ** Notes *)


Lemma note_lookup_absent (note_id : Z) (db : Database) :
  (forall n, In n (notes db) -> NoteDB.id n <> note_id) ->
  first (filter (fun n => Z.eqb (NoteDB.id n) note_id) (notes db)) = None.
Proof.
  intros Habsent.
  destruct (first _) as [n|] eqn:Hf; [|reflexivity].
  apply first_filter_Some in Hf. destruct Hf as [Hin Hid].
  apply Z.eqb_eq in Hid. now destruct (Habsent n Hin).
Qed.

Lemma user_lookup_absent (p : UserDB.row -> bool) (db : Database) :
  (forall u, In u (users db) -> p u = false) ->
  first (filter p (users db)) = None.
Proof.
  intros Habsent.
  destruct (first _) as [u|] eqn:Hf; [|reflexivity].
  apply first_filter_Some in Hf. destruct Hf as [Hin Hp].
  rewrite (Habsent u Hin) in Hp. discriminate.
Qed.

(** A 403 from update or delete means the note was found. *)
Lemma delete_note_403_exists note_id current_user db :
  status_of (fst (delete_note note_id current_user db)) = Some 403 ->
  exists n, In n (notes db) /\ NoteDB.id n = note_id.
Proof.
  unfold delete_note, bind, query_notes.
  destruct (first _) as [n|] eqn:Hf.
  - intros _. apply first_filter_Some in Hf. destruct Hf as [Hin Hid].
    apply Z.eqb_eq in Hid. eauto.
  - simpl. discriminate.
Qed.

Lemma update_note_403_exists note_id body current_user db :
  status_of (fst (update_note note_id body current_user db)) = Some 403 ->
  exists n, In n (notes db) /\ NoteDB.id n = note_id.
Proof.
  unfold update_note, bind, query_notes.
  destruct (first _) as [n|] eqn:Hf.
  - intros _. apply first_filter_Some in Hf. destruct Hf as [Hin Hid].
    apply Z.eqb_eq in Hid. eauto.
  - simpl. discriminate.
Qed.

(** ** User management: the admin gate comes first *)

Lemma non_admin_forbidden {crypt : CryptContext} op current_user db :
  UserDB.role current_user <> RoleEnum.value ADMIN ->
  user_operation_outcome op current_user db = Raise not_enough_permissions.
Proof.
  intros Hrole.
  assert (Hgate : is_not_admin current_user = true).
  { unfold is_not_admin, ADMIN_value. apply negb_true_iff.
    now apply String.eqb_neq. }
  destruct op; simpl;
    unfold get_all_users, deactivate_user, reset_password, update_user_role,
      delete_user; rewrite Hgate; reflexivity.
Qed.

Lemma not_found_only_for_admin {crypt : CryptContext} op current_user db :
  status_of (user_operation_outcome op current_user db) = Some 404 ->
  UserDB.role current_user = RoleEnum.value ADMIN.
Proof.
  destruct (String.eqb_spec (UserDB.role current_user) (RoleEnum.value ADMIN))
    as [E|E]; [intros _; exact E|].
  rewrite (non_admin_forbidden op current_user db E). simpl. discriminate.
Qed.

(** C5.  The order of the checks differs.  For note update and delete an
    unknown note id gives 404 to every caller, owner or not, and 403 arises
    only for a note that exists.  For the admin-only operations on users a
    caller who is not admin gets 403 whether or not the target exists, so
    404 arises only for an admin. *)
Theorem C5_failure_check_order
    (crypt : CryptContext) (current_user : UserDB.row) (db : Database) :
  (forall note_id body,
     (forall n, In n (notes db) -> NoteDB.id n <> note_id) ->
     delete_note note_id current_user db
       = (Raise (HTTPException 404 "Note not found"), db)
     /\ update_note note_id body current_user db
       = (Raise (HTTPException 404 "Note not found"), db))
  /\ (forall note_id body,
        status_of (fst (delete_note note_id current_user db)) = Some 403
        \/ status_of (fst (update_note note_id body current_user db)) = Some 403 ->
        exists n, In n (notes db) /\ NoteDB.id n = note_id)
  /\ (forall op,
        UserDB.role current_user <> RoleEnum.value ADMIN ->
        user_operation_outcome op current_user db
          = Raise (HTTPException 403 "Not enough permissions"))
  /\ (forall op,
        status_of (user_operation_outcome op current_user db) = Some 404 ->
        UserDB.role current_user = RoleEnum.value ADMIN).
Proof.
  split; [|split; [|split]].
  - intros note_id body Habsent.
    pose proof (note_lookup_absent note_id db Habsent) as Hnone.
    split.
    + unfold delete_note, bind, query_notes. now rewrite Hnone.
    + unfold update_note, bind, query_notes. now rewrite Hnone.
  - intros note_id body [Hd | Hu].
    + now apply (delete_note_403_exists note_id current_user db).
    + now apply (update_note_403_exists note_id body current_user db).
  - intros op Hrole. now apply non_admin_forbidden.
  - intros op. apply not_found_only_for_admin.
Qed.

Lemma C5_witness :
  (* a stranger and an unknown note: 404 *)
  delete_note 99 alice sample_db
    = (Raise (HTTPException 404 "Note not found"), sample_db)
  (* a stranger and somebody else's note: 403, and the note exists *)
  /\ status_of (fst (delete_note 2 alice sample_db)) = Some 403
  /\ (exists n, In n (notes sample_db) /\ NoteDB.id n = 2)
  (* not an admin, unknown target: 403 *)
  /\ user_operation_outcome (crypt := sample_crypt) (Deactivate 99) alice sample_db
     = Raise (HTTPException 403 "Not enough permissions")
  (* an admin, unknown target: 404 *)
  /\ status_of (user_operation_outcome (crypt := sample_crypt) (Deactivate 99)
                  root sample_db) = Some 404.
Proof.
  pose proof (C5_failure_check_order sample_crypt alice sample_db)
    as [Hmissing [Hfound [Hgate _]]].
  split; [|split; [|split; [|split]]].
  - apply (Hmissing 99 (NoteUpdate.mk None None None)).
    intros n [<- | [<- | []]]; simpl; lia.
  - reflexivity.
  - apply (Hfound 2 (NoteUpdate.mk None None None)). left. reflexivity.
  - apply Hgate. simpl. discriminate.
  - reflexivity.
Defined.

(** ** Ownership of notes *)

Lemma setattr_keeps_id_owner (items : list NoteUpdate.item) (note : NoteDB.row) :
  NoteDB.id (fold_left setattr items note) = NoteDB.id note
  /\ NoteDB.owner (fold_left setattr items note) = NoteDB.owner note.
Proof.
  revert note. induction items as [|kv items IH]; intros note; simpl.
  - split; reflexivity.
  - destruct (IH (setattr note kv)) as [Hid Howner].
    rewrite Hid, Howner. destruct kv; split; reflexivity.
Qed.

Lemma update_note_success note_id body current_user db r db' :
  update_note note_id body current_user db = (Return r, db') ->
  exists n,
    In n (notes db) /\ NoteDB.id n = note_id
    /\ not_owner_nor_admin n current_user = false
    /\ r = fold_left setattr (NoteUpdate.dict_exclude_unset body) n
    /\ db' = snd (commit_note r db).
Proof.
  unfold update_note, bind, query_notes.
  destruct (first _) as [n|] eqn:Hf; [|discriminate].
  apply first_filter_Some in Hf. destruct Hf as [Hin Hid].
  apply Z.eqb_eq in Hid.
  destruct (not_owner_nor_admin n current_user) eqn:Hperm; [discriminate|].
  unfold commit_note. intros E. injection E as <- <-.
  exists n. repeat split; assumption.
Qed.

Lemma update_note_failure note_id body current_user db e db' :
  update_note note_id body current_user db = (Raise e, db') -> db' = db.
Proof.
  unfold update_note, bind, query_notes.
  destruct (first _) as [n|]; [|intros E; now injection E].
  destruct (not_owner_nor_admin n current_user);
    [intros E; now injection E | discriminate].
Qed.

(** C9.  An update, whatever fields it sets and whoever is allowed to make
    it, leaves the owner of every stored note as it was, and the note it
    returns has the owner it had; the owner is written at creation, from the
    username of the creating identity. *)
Theorem C9_update_note_keeps_owner
    (note_id : Z) (body : NoteUpdate.t) (note : NoteCreate.t)
    (current_user : UserDB.row) (db : Database) :
  NoDup (map NoteDB.id (notes db)) ->
  map id_owner (notes (snd (update_note note_id body current_user db)))
    = map id_owner (notes db)
  /\ (forall r, fst (update_note note_id body current_user db) = Return r ->
        exists n, In n (notes db) /\ NoteDB.id n = note_id
                  /\ id_owner r = id_owner n)
  /\ (exists new,
        create_note note current_user db
          = (Return new,
             mkDatabase (users db) (notes db ++ [new]) (logs db))
        /\ NoteDB.owner new = UserDB.username current_user).
Proof.
  intros Hnd.
  destruct (update_note note_id body current_user db) as [[r|e] db'] eqn:Hrun.
  - destruct (update_note_success _ _ _ _ _ _ Hrun)
      as [n [Hin [Hid [_ [Hr Hdb']]]]].
    destruct (setattr_keeps_id_owner (NoteUpdate.dict_exclude_unset body) n)
      as [Eid Eowner]. rewrite <- Hr in Eid, Eowner.
    split; [|split].
    + simpl. rewrite Hdb'. unfold commit_note; simpl.
      apply map_replace_same. intros x Hx.
      destruct (Z.eqb_spec (NoteDB.id x) (NoteDB.id r)) as [E|E]; [|reflexivity].
      assert (x = n) as ->.
      { apply (NoDup_map_eq NoteDB.id (notes db)); auto. congruence. }
      unfold id_owner. now rewrite Eid, Eowner.
    + simpl. intros r' E. injection E as <-. exists n.
      repeat split; try assumption. unfold id_owner. now rewrite Eid, Eowner.
    + eexists. split; reflexivity.
  - rewrite (update_note_failure _ _ _ _ _ _ Hrun). split; [|split].
    + reflexivity.
    + simpl. discriminate.
    + eexists. split; reflexivity.
Qed.

Lemma C9_witness :
  map id_owner
      (notes (snd (update_note 1 (NoteUpdate.mk (Some (Some "z")) None
                                                (Some (Some false)))
                               root sample_db)))
  = [(1, "alice"); (2, "carol")].
Proof.
  apply (C9_update_note_keeps_owner 1
           (NoteUpdate.mk (Some (Some "z")) None (Some (Some false)))
           (NoteCreate.mk "t" "c" true) root sample_db).
  simpl. repeat (constructor; [simpl; intuition discriminate|]). constructor.
Defined.

(** ** Deactivation *)

Lemma decoded_nonempty now tok key algs payload :
  pyjwt.decode now tok key algs = pyjwt.Payload payload ->
  pyjwt.nonempty tok = true.
Proof. destruct tok; simpl; [discriminate | reflexivity]. Qed.

(** Whoever is resolved is a stored, active user. *)
Lemma get_current_user_active now token api_key db u :
  fst (get_current_user now token api_key db) = Return u ->
  In u (users db) /\ UserDB.is_active u = true.
Proof.
  unfold get_current_user.
  destruct (truthy_token token) as [tok|].
  - destruct (pyjwt.decode now tok SECRET_KEY [ALGORITHM]) as [payload| |];
      simpl; try discriminate.
    destruct (pyjwt.sub payload) as [name|]; simpl; [|discriminate].
    unfold bind, query_users.
    destruct (first _) as [user|] eqn:Hf; simpl; [|discriminate].
    destruct (UserDB.is_active user) eqn:Hact; simpl; [|discriminate].
    intros E. injection E as <-.
    apply first_filter_Some in Hf. tauto.
  - destruct (truthy_str api_key) as [k|]; simpl; [|discriminate].
    unfold bind, query_users.
    destruct (first _) as [user|] eqn:Hf; simpl; [|discriminate].
    destruct (UserDB.is_active user) eqn:Hact; simpl; [|discriminate].
    intros E. injection E as <-.
    apply first_filter_Some in Hf. tauto.
Qed.

Lemma inactive_no_credential_resolves now db U :
  consistent db -> In U (users db) -> UserDB.is_active U = false ->
  no_credential_resolves now db U.
Proof.
  intros Hok Hin Hoff. split; [|split].
  - intros tok payload api_key Hdec Hsub.
    unfold get_current_user.
    rewrite (truthy_token_Some tok (decoded_nonempty _ _ _ _ _ Hdec)).
    rewrite Hdec, Hsub. unfold bind, query_users.
    rewrite (first_filter_the _ (users db) U Hin).
    + now rewrite Hoff.
    + apply String.eqb_refl.
    + intros y Hy Hp. apply String.eqb_eq in Hp.
      apply (NoDup_map_eq UserDB.username (users db)); auto.
      apply (usernames_unique db Hok).
  - intros token Htok.
    destruct (UserDB.api_key U) as [k|] eqn:Hkey.
    + destruct (String.eqb_spec k "") as [-> | Hk].
      * eexists. split.
        -- unfold get_current_user. rewrite Htok. simpl. reflexivity.
        -- intros k E Hne. injection E as <-. now destruct Hne.
      * eexists. split.
        -- apply api_key_path_rejects; try assumption.
           intros u Hu Hku.
           now rewrite (api_keys_eq (users db) u U k
                          (api_keys_unique db Hok) Hu Hin Hku Hkey).
        -- reflexivity.
    + eexists. split.
      * unfold get_current_user. rewrite Htok. simpl. reflexivity.
      * discriminate.
  - intros token api_key u Hres Hname.
    destruct (get_current_user_active _ _ _ _ _ Hres) as [Hu Hact].
    assert (u = U) as ->.
    { apply (NoDup_map_eq UserDB.username (users db)); auto.
      apply (usernames_unique db Hok). }
    congruence.
Qed.

Lemma deactivate_user_success user_id current_user db U db' :
  deactivate_user user_id current_user db = (Return U, db') ->
  exists u0,
    In u0 (users db) /\ UserDB.id u0 = user_id
    /\ U = UserDB.with_is_active false u0
    /\ db' = snd (commit_user U db).
Proof.
  unfold deactivate_user.
  destruct (is_not_admin current_user); [discriminate|].
  unfold bind, query_users.
  destruct (first _) as [u0|] eqn:Hf; [|discriminate].
  apply first_filter_Some in Hf. destruct Hf as [Hin Hid].
  apply Z.eqb_eq in Hid.
  unfold commit_user. intros E. injection E as <- <-.
  exists u0. repeat split; assumption.
Qed.

(** C2.  In any state where user U is inactive, resolution fails for U on
    both paths: a validly signed, unexpired token with subject U is refused,
    and so is U's API key.  In particular this is the state right after a
    successful deactivation of U. *)
Theorem C2_deactivated_user_cannot_authenticate
    (now : datetime) (db : Database) (U : UserDB.row) :
  (consistent db -> In U (users db) -> UserDB.is_active U = false ->
   no_credential_resolves now db U)
  /\ (forall db0 admin user_id,
        consistent db0 ->
        deactivate_user user_id admin db0 = (Return U, db) ->
        UserDB.id U = user_id /\ In U (users db)
        /\ UserDB.is_active U = false
        /\ no_credential_resolves now db U).
Proof.
  split.
  - apply inactive_no_credential_resolves.
  - intros db0 admin user_id Hok Hrun.
    destruct (deactivate_user_success _ _ _ _ _ Hrun)
      as [u0 [Hin [Hid [HU Hdb]]]].
    assert (HinU : In U (users db)).
    { rewrite Hdb. apply (commit_user_stored db0 u0 U Hin). now rewrite HU. }
    assert (Hoff : UserDB.is_active U = false) by now rewrite HU.
    split; [now rewrite HU | split; [exact HinU | split; [exact Hoff|]]].
    apply inactive_no_credential_resolves; try assumption.
    rewrite Hdb. apply (commit_user_consistent db0 u0 U Hok Hin);
      rewrite HU; reflexivity.
Qed.

Lemma C2_witness :
  let db' := snd (deactivate_user 2 root sample_db) in
  get_current_user 60 (Some (token_for "alice" 0)) None db'
    = (Raise (HTTPException 401 "Invalid authentication credentials"), db')
  /\ exists e, get_current_user 60 None (Some "key-alice") db' = (Raise e, db')
               /\ e = HTTPException 403 "Could not validate API key".
Proof.
  intros db'.
  destruct (proj2 (C2_deactivated_user_cannot_authenticate
                     60 db' (UserDB.with_is_active false alice))
                  sample_db root 2 sample_db_consistent eq_refl)
    as [_ [_ [_ [Hbearer [Hkey _]]]]].
  split.
  - apply (Hbearer (token_for "alice" 0)
                   (pyjwt.mkClaims (Some "alice") (Some 1800))); reflexivity.
  - destruct (Hkey None eq_refl) as [e [Hrun He]].
    exists e. split; [exact Hrun|].
    apply (He "key-alice"); [reflexivity | discriminate].
Defined.

(** ** Tokens *)

Lemma decode_issued now issued data expires_delta :
  pyjwt.decode now (create_access_token issued data expires_delta)
               SECRET_KEY [ALGORITHM]
  = let expire :=
      if timedelta_truthy expires_delta
      then issued + match expires_delta with Some d => d | None => 0 end
      else issued + minutes 15 in
    if expire <=? now then pyjwt.ExpiredSignatureError
    else pyjwt.Payload (pyjwt.mkClaims (pyjwt.sub data) (Some expire)).
Proof.
  unfold create_access_token, pyjwt.encode, pyjwt.decode.
  destruct expires_delta as [d|]; simpl; [destruct (d =? 0)|]; reflexivity.
Qed.

Lemma issued_nonempty issued data expires_delta :
  pyjwt.nonempty (create_access_token issued data expires_delta) = true.
Proof. reflexivity. Qed.

Lemma get_current_user_decoded now tok api_key db payload U u :
  pyjwt.decode now tok SECRET_KEY [ALGORITHM] = pyjwt.Payload payload ->
  pyjwt.sub payload = Some U ->
  NoDup (map UserDB.username (users db)) ->
  In u (users db) -> UserDB.username u = U -> UserDB.is_active u = true ->
  get_current_user now (Some tok) api_key db = (Return u, db).
Proof.
  intros Hdec Hsub Hnd Hin Hname Hact. unfold get_current_user.
  rewrite (truthy_token_Some tok (decoded_nonempty _ _ _ _ _ Hdec)).
  rewrite Hdec, Hsub. unfold bind, query_users.
  rewrite (first_filter_the _ (users db) u Hin).
  - now rewrite Hact.
  - now apply String.eqb_eq.
  - intros y Hy Hp. apply String.eqb_eq in Hp.
    apply (NoDup_map_eq UserDB.username (users db)); auto. congruence.
Qed.






(** ** Deleting a user *)

Lemma delete_user_success user_name current_user db deleted db' :
  delete_user user_name current_user db = (Return deleted, db') ->
  In deleted (users db) /\ UserDB.username deleted = user_name
  /\ db' = snd (delete_user_row deleted db).
Proof.
  unfold delete_user.
  destruct (is_not_admin current_user); [discriminate|].
  unfold bind, query_users.
  destruct (first _) as [u0|] eqn:Hf; [|discriminate].
  apply first_filter_Some in Hf. destruct Hf as [Hin Hname].
  apply String.eqb_eq in Hname.
  simpl. intros E. injection E as <- <-. auto.
Qed.

Lemma register_user_success {crypt : CryptContext} user rnd db new db' :
  register_user user rnd db = (Return new, db') ->
  UserDB.username new = UserCreate.username user
  /\ UserDB.hashed_password new
     = get_password_hash rnd (UserCreate.password user)
  /\ UserDB.role new = RoleEnum.value (UserCreate.role user)
  /\ UserDB.is_active new = true
  /\ db' = mkDatabase (users db ++ [new]) (notes db) (logs db).
Proof.
  unfold register_user, bind, query_users.
  destruct (first _) as [u0|]; [discriminate|].
  unfold add_user. destruct (existsb _ _); [discriminate|].
  intros E. injection E as <- <-. repeat split.
Qed.

Lemma note_lookup_the (db : Database) (n : NoteDB.row) :
  NoDup (map NoteDB.id (notes db)) -> In n (notes db) ->
  first (filter (fun r => Z.eqb (NoteDB.id r) (NoteDB.id n)) (notes db))
    = Some n.
Proof.
  intros Hnd Hin. apply first_filter_the; [assumption | apply Z.eqb_refl |].
  intros y Hy Hp. apply Z.eqb_eq in Hp.
  now apply (NoDup_map_eq NoteDB.id (notes db)).
Qed.

Lemma owner_passes_check (n : NoteDB.row) (u : UserDB.row) :
  NoteDB.owner n = UserDB.username u -> not_owner_nor_admin n u = false.
Proof.
  intros E. unfold not_owner_nor_admin.
  now rewrite (proj2 (String.eqb_eq _ _) E).
Qed.

Lemma admin_sees_all (viewer : UserDB.row) (db : Database) :
  UserDB.role viewer = RoleEnum.value ADMIN ->
  get_notes viewer db = (Return (notes db), db).
Proof.
  intros Hrole. unfold get_notes, bind, query_notes, ret.
  rewrite filter_all. f_equal. f_equal.
  rewrite <- (filter_all (notes db)) at 2. apply filter_ext.
  intros n. unfold visible, ADMIN_value.
  rewrite (proj2 (String.eqb_eq _ _) Hrole). now rewrite !orb_true_r.
Qed.

(** C10.  Deleting a user by username removes that one record and nothing
    else: the notes and logs are untouched, so every note of the deleted
    username is still stored with all its fields and still listed for an
    admin; and since ownership is the username string, a user registered
    later under the same username passes the owner check on those notes. *)
Theorem C10_delete_user_leaves_notes
    (crypt : CryptContext) (user_name : string) (admin : UserDB.row)
    (db db' : Database) (deleted : UserDB.row) :
  consistent db ->
  delete_user user_name admin db = (Return deleted, db') ->
  UserDB.username deleted = user_name
  /\ (forall u, In u (users db') <-> In u (users db) /\ u <> deleted)
  /\ notes db' = notes db
  /\ logs db' = logs db
  /\ (forall viewer, UserDB.role viewer = RoleEnum.value ADMIN ->
        get_notes viewer db' = (Return (notes db), db'))
  /\ (forall user rnd newcomer db'',
        UserCreate.username user = user_name ->
        register_user user rnd db' = (Return newcomer, db'') ->
        notes db'' = notes db
        /\ forall n body,
             In n (notes db) -> NoteDB.owner n = user_name ->
             not_owner_nor_admin n newcomer = false
             /\ fst (delete_note (NoteDB.id n) newcomer db'') = Return n
             /\ fst (update_note (NoteDB.id n) body newcomer db'')
                = Return (fold_left setattr
                            (NoteUpdate.dict_exclude_unset body) n)).
Proof.
  intros Hok Hrun.
  destruct (delete_user_success _ _ _ _ _ Hrun) as [Hin [Hname Hdb']].
  assert (Hnotes : notes db' = notes db) by now rewrite Hdb'.
  split; [exact Hname | split; [|split; [exact Hnotes | split; [|split]]]].
  - intros u. rewrite Hdb'. simpl. rewrite filter_In, negb_true_iff, Z.eqb_neq.
    split; intros [Hu Hne]; (split; [exact Hu|]).
    + intros ->. now apply Hne.
    + intros Eid. apply Hne.
      apply (NoDup_map_eq UserDB.id (users db)); auto.
      apply (user_ids_unique db Hok).
  - now rewrite Hdb'.
  - intros viewer Hrole. rewrite <- Hnotes. now apply admin_sees_all.
  - intros user rnd newcomer db'' Huser Hreg.
    destruct (register_user_success _ _ _ _ _ Hreg)
      as [Hnew [_ [_ [_ Hdb'']]]].
    assert (Hnotes'' : notes db'' = notes db) by now rewrite Hdb''.
    split; [exact Hnotes''|].
    intros n body Hn Howner.
    assert (Hpass : not_owner_nor_admin n newcomer = false).
    { apply owner_passes_check. congruence. }
    assert (Hfind : first (filter (fun r => Z.eqb (NoteDB.id r) (NoteDB.id n))
                                  (notes db'')) = Some n).
    { apply note_lookup_the; rewrite Hnotes'';
        [apply (note_ids_unique db Hok) | exact Hn]. }
    split; [exact Hpass | split].
    + unfold delete_note, bind, query_notes. now rewrite Hfind, Hpass.
    + unfold update_note, bind, query_notes. now rewrite Hfind, Hpass.
Qed.

Lemma C10_witness :
  let db' := snd (delete_user "alice" root sample_db) in
  let again :=
    UserCreate.mk "alice" "Another Alice" "a2@example.org" "pw" USER in
  let newcomer :=
    UserDB.mk 4 "alice" "Another Alice" "a2@example.org" "$pw" "user" true
              (Some "key-a2") in
  let db'' := mkDatabase [root; carol; newcomer] [alice_note; carol_note] [] in
  users db' = [root; carol]
  /\ notes db' = [alice_note; carol_note]
  /\ get_notes root db' = (Return [alice_note; carol_note], db')
  /\ register_user (H := sample_crypt) again (mkEntropy "salt" "key-a2") db'
     = (Return newcomer, db'')
  /\ fst (delete_note 1 newcomer db'') = Return alice_note.
Proof.
  intros db' again newcomer db''.
  destruct (C10_delete_user_leaves_notes sample_crypt "alice" root sample_db
              db' alice sample_db_consistent eq_refl)
    as [_ [_ [Hnotes [_ [Hlist Hagain]]]]].
  split; [reflexivity | split; [exact Hnotes | split; [|split]]].
  - apply Hlist. reflexivity.
  - reflexivity.
  - apply (proj2 (Hagain again (mkEntropy "salt" "key-a2") newcomer db''
                         eq_refl eq_refl)
                 alice_note (NoteUpdate.mk None None None));
      [simpl; auto | reflexivity].
Defined.

(** ** What a User response carries *)

Lemma of_value_value (s : string) (r : Role) :
  RoleEnum.of_value s = Some r -> RoleEnum.value r = s.
Proof.
  unfold RoleEnum.of_value.
  destruct (String.eqb_spec s "admin") as [-> | _].
  - intros E. injection E as <-. reflexivity.
  - destruct (String.eqb_spec s "user") as [-> | _]; [|discriminate].
    intros E. injection E as <-. reflexivity.
Qed.

Lemma User_validate_view (r : UserDB.row) (v : User.t) :
  User_validate r = Some v -> is_view_of r v.
Proof.
  unfold User_validate, is_view_of.
  destruct (RoleEnum.of_value (UserDB.role r)) as [role|] eqn:Hrole;
    [|discriminate].
  intros E. injection E as <-. unfold User_json, full_view. simpl.
  now rewrite (of_value_value _ _ Hrole).
Qed.

Lemma validate_all_views (rows : list UserDB.row) (vs : list User.t) :
  validate_all User_validate rows = Some vs -> Forall2 is_view_of rows vs.
Proof.
  revert vs. induction rows as [|r rows IH]; simpl; intros vs.
  - intros E. injection E as <-. constructor.
  - destruct (User_validate r) as [v|] eqn:Hv; [|discriminate].
    destruct (validate_all User_validate rows) as [vs'|]; [|discriminate].
    intros E. injection E as <-. constructor.
    + now apply User_validate_view.
    + now apply IH.
Qed.

Lemma response_model_Return {R V} (validate : R -> option V) (h : Handler R)
    (db db' : Database) (v : V) :
  response_model validate h db = (Return v, db') ->
  exists r, h db = (Return r, db') /\ validate r = Some v.
Proof.
  unfold response_model, bind.
  destruct (h db) as [[r|e] db1]; [|discriminate].
  destruct (validate r) as [v'|] eqn:Hv; [|discriminate].
  unfold ret. intros E. injection E as <- <-. eauto.
Qed.

Lemma get_current_user_readonly now token api_key db :
  snd (get_current_user now token api_key db) = db.
Proof.
  unfold get_current_user.
  destruct (truthy_token token) as [tok|].
  - destruct (pyjwt.decode now tok SECRET_KEY [ALGORITHM]) as [payload| |];
      try reflexivity.
    destruct (pyjwt.sub payload) as [name|]; [|reflexivity].
    unfold bind, query_users.
    destruct (first _) as [user|]; [|reflexivity].
    destruct (UserDB.is_active user); reflexivity.
  - destruct (truthy_str api_key) as [k|]; [|reflexivity].
    unfold bind, query_users.
    destruct (first _) as [user|]; [|reflexivity].
    destruct (UserDB.is_active user); reflexivity.
Qed.

Lemma authenticated_Return {A} now c (endpoint : UserDB.row -> Handler A)
    (db db' : Database) (a : A) :
  authenticated now c endpoint db = (Return a, db') ->
  exists current_user,
    get_current_user now (bearer c) (x_api_key c) db = (Return current_user, db)
    /\ endpoint current_user db = (Return a, db').
Proof.
  unfold authenticated, bind.
  pose proof (get_current_user_readonly now (bearer c) (x_api_key c) db) as Hro.
  destruct (get_current_user now (bearer c) (x_api_key c) db) as [[cu|e] db1];
    [|discriminate].
  simpl in Hro. subst db1. eauto.
Qed.

Lemma reset_password_success {crypt : CryptContext}
    user_id new_password rnd current_user db U db' :
  reset_password user_id new_password rnd current_user db = (Return U, db') ->
  exists u0,
    In u0 (users db) /\ UserDB.id u0 = user_id
    /\ U = UserDB.with_hashed_password
             (get_password_hash rnd new_password) u0
    /\ db' = snd (commit_user U db).
Proof.
  unfold reset_password.
  destruct (is_not_admin current_user); [discriminate|].
  unfold bind, query_users.
  destruct (first _) as [u0|] eqn:Hf; [|discriminate].
  apply first_filter_Some in Hf. destruct Hf as [Hin Hid].
  apply Z.eqb_eq in Hid.
  unfold commit_user. intros E. injection E as <- <-.
  exists u0. repeat split; assumption.
Qed.

Lemma update_user_role_success user_id body current_user db U db' :
  update_user_role user_id body current_user db = (Return U, db') ->
  exists u0,
    In u0 (users db) /\ UserDB.id u0 = user_id
    /\ U = UserDB.with_role (RoleEnum.value (UserUpdateRole.role body)) u0
    /\ db' = snd (commit_user U db).
Proof.
  unfold update_user_role.
  destruct (is_not_admin current_user); [discriminate|].
  unfold bind, query_users.
  destruct (first _) as [u0|] eqn:Hf; [|discriminate].
  apply first_filter_Some in Hf. destruct Hf as [Hin Hid].
  apply Z.eqb_eq in Hid.
  unfold commit_user. intros E. injection E as <- <-.
  exists u0. repeat split; assumption.
Qed.

Lemma get_all_users_success current_user db rows db' :
  get_all_users current_user db = (Return rows, db') ->
  rows = users db /\ db' = db.
Proof.
  unfold get_all_users.
  destruct (is_not_admin current_user); [discriminate|].
  unfold query_users. rewrite filter_all.
  intros E. injection E as <- <-. split; reflexivity.
Qed.

(** C1, as the code has it.  Each of the six operations that answer with a
    User (register, list, deactivate, reset password, change role, delete by
    username) answers with the seven fields of the [User] model read off the
    stored row: username, full_name, email, hashed_password, role,
    is_active and api_key.  The stored password hash is part of the answer;
    only the row id is left out. *)
Theorem C1_user_response_fields
    (crypt : CryptContext) (now : datetime) (c : Credentials)
    (db db' : Database) :
  (forall user rnd v,
     POST_register user rnd db = (Return v, db') ->
     exists r, In r (users db') /\ is_view_of r v
               /\ UserDB.hashed_password r
                  = get_password_hash rnd (UserCreate.password user))
  /\ (forall vs,
        GET_users now c db = (Return vs, db') ->
        Forall2 is_view_of (users db) vs)
  /\ (forall user_id v,
        PUT_users_deactivate now c user_id db = (Return v, db') ->
        exists r, In r (users db') /\ UserDB.id r = user_id /\ is_view_of r v)
  /\ (forall user_id new_password rnd v,
        PUT_users_reset_password now c user_id new_password rnd db
          = (Return v, db') ->
        exists r, In r (users db') /\ UserDB.id r = user_id /\ is_view_of r v)
  /\ (forall user_id body v,
        PUT_users_update_role now c user_id body db = (Return v, db') ->
        exists r, In r (users db') /\ UserDB.id r = user_id /\ is_view_of r v)
  /\ (forall user_name v,
        DELETE_users now c user_name db = (Return v, db') ->
        exists r, In r (users db) /\ UserDB.username r = user_name
                  /\ is_view_of r v).
Proof.
  split; [|split; [|split; [|split; [|split]]]].
  - intros user rnd v Hrun.
    apply response_model_Return in Hrun. destruct Hrun as [r [Hrun Hv]].
    destruct (register_user_success _ _ _ _ _ Hrun) as [_ [Hhash [_ [_ Hdb']]]].
    exists r. split; [|split].
    + rewrite Hdb'. simpl. apply in_or_app. right. now left.
    + now apply User_validate_view.
    + exact Hhash.
  - intros vs Hrun.
    apply response_model_Return in Hrun. destruct Hrun as [rows [Hrun Hv]].
    apply authenticated_Return in Hrun. destruct Hrun as [cu [_ Hrun]].
    destruct (get_all_users_success _ _ _ _ Hrun) as [-> _].
    now apply validate_all_views.
  - intros user_id v Hrun.
    apply response_model_Return in Hrun. destruct Hrun as [r [Hrun Hv]].
    apply authenticated_Return in Hrun. destruct Hrun as [cu [_ Hrun]].
    destruct (deactivate_user_success _ _ _ _ _ Hrun)
      as [u0 [Hin [Hid [Hr Hdb']]]].
    exists r. split; [|split].
    + rewrite Hdb'. apply (commit_user_stored db u0 r Hin). now rewrite Hr.
    + now rewrite Hr.
    + now apply User_validate_view.
  - intros user_id new_password rnd v Hrun.
    apply response_model_Return in Hrun. destruct Hrun as [r [Hrun Hv]].
    apply authenticated_Return in Hrun. destruct Hrun as [cu [_ Hrun]].
    destruct (reset_password_success _ _ _ _ _ _ _ Hrun)
      as [u0 [Hin [Hid [Hr Hdb']]]].
    exists r. split; [|split].
    + rewrite Hdb'. apply (commit_user_stored db u0 r Hin). now rewrite Hr.
    + now rewrite Hr.
    + now apply User_validate_view.
  - intros user_id body v Hrun.
    apply response_model_Return in Hrun. destruct Hrun as [r [Hrun Hv]].
    apply authenticated_Return in Hrun. destruct Hrun as [cu [_ Hrun]].
    destruct (update_user_role_success _ _ _ _ _ _ Hrun)
      as [u0 [Hin [Hid [Hr Hdb']]]].
    exists r. split; [|split].
    + rewrite Hdb'. apply (commit_user_stored db u0 r Hin). now rewrite Hr.
    + now rewrite Hr.
    + now apply User_validate_view.
  - intros user_name v Hrun.
    apply response_model_Return in Hrun. destruct Hrun as [r [Hrun Hv]].
    apply authenticated_Return in Hrun. destruct Hrun as [cu [_ Hrun]].
    destruct (delete_user_success _ _ _ _ _ Hrun) as [Hin [Hname _]].
    exists r. split; [exact Hin | split; [exact Hname|]].
    now apply User_validate_view.
Qed.

Lemma C1_witness :
  exists r,
    In r (users sample_after_deactivate) /\ UserDB.id r = 2
    /\ is_view_of r alice_deactivated_view.
Proof.
  apply (proj1 (proj2 (proj2 (C1_user_response_fields
                  sample_crypt 60 root_credentials sample_db
                  sample_after_deactivate)))
               2 alice_deactivated_view).
  reflexivity.
Defined.

(** As the specification words it, the law fails: the answer to a
    deactivation (here of alice,
    by root) is a JSON object whose [hashed_password] member is the hash
    stored for alice; registration answers likewise with the hash it has
    just stored. *)
Lemma C1_password_hash_counterexample :
  PUT_users_deactivate 60 root_credentials 2 sample_db
    = (Return alice_deactivated_view, sample_after_deactivate)
  /\ UserDB.hashed_password alice = "$2b$12$alicedigest"
  /\ In ("hashed_password", JString "$2b$12$alicedigest")
        (User_json alice_deactivated_view)
  /\ exists v db',
       POST_register (H := sample_crypt)
         (UserCreate.mk "dave" "Dave" "dave@example.org" "pw" USER)
         (mkEntropy "salt" "key-dave") sample_db = (Return v, db')
       /\ In ("hashed_password",
              JString (hash (CryptContext := sample_crypt) "salt" "pw"))
             (User_json v).
Proof.
  split; [reflexivity | split; [reflexivity | split]].
  - simpl. auto.
  - eexists. eexists. split; [reflexivity|]. simpl. auto.
Qed.

(** ** Every handler keeps the constraints *)

Lemma add_user_failure username full_name email hashed_password role api_key
    db e db' :
  add_user username full_name email hashed_password role api_key db
    = (Raise e, db') -> db' = db.
Proof.
  unfold add_user. destruct (existsb _ _); [|discriminate].
  intros E. now injection E.
Qed.

Lemma register_user_consistent {crypt : CryptContext} user rnd db :
  consistent db -> consistent (snd (register_user user rnd db)).
Proof.
  intros Hok. unfold register_user, bind, query_users.
  destruct (first _) as [taken|]; [exact Hok|].
  destruct (add_user _ _ _ _ _ _ db) as [[new|e] db'] eqn:Hadd; simpl.
  - now apply (add_user_consistent _ _ _ _ _ _ _ _ _ Hok Hadd).
  - now rewrite (add_user_failure _ _ _ _ _ _ _ _ _ Hadd).
Qed.

(** The three admin updates rewrite one stored row and leave its key
    columns alone. *)
Lemma admin_update_consistent (f : UserDB.row -> UserDB.row) user_id db :
  (forall u, UserDB.id (f u) = UserDB.id u
             /\ UserDB.username (f u) = UserDB.username u
             /\ UserDB.email (f u) = UserDB.email u
             /\ UserDB.api_key (f u) = UserDB.api_key u) ->
  consistent db ->
  consistent
    (snd ((found <- query_users (fun u => Z.eqb (UserDB.id u) user_id) ;;
           match first found with
           | None => raise user_not_found
           | Some user => commit_user (f user)
           end) db)).
Proof.
  intros Hkeys Hok. unfold bind, query_users.
  destruct (first _) as [u0|] eqn:Hf; [|exact Hok].
  apply first_filter_Some in Hf. destruct Hf as [Hin _].
  destruct (Hkeys u0) as [Eid [Ename [Email Ekey]]].
  now apply (commit_user_consistent db u0 (f u0)).
Qed.

Lemma deactivate_user_consistent user_id current_user db :
  consistent db -> consistent (snd (deactivate_user user_id current_user db)).
Proof.
  intros Hok. unfold deactivate_user.
  destruct (is_not_admin current_user); [exact Hok|].
  apply (admin_update_consistent (UserDB.with_is_active false)); [|exact Hok].
  intros u. repeat split.
Qed.

Lemma reset_password_consistent {crypt : CryptContext}
    user_id new_password rnd current_user db :
  consistent db ->
  consistent (snd (reset_password user_id new_password rnd current_user db)).
Proof.
  intros Hok. unfold reset_password.
  destruct (is_not_admin current_user); [exact Hok|].
  apply (admin_update_consistent
           (UserDB.with_hashed_password (get_password_hash rnd new_password)));
    [|exact Hok].
  intros u. repeat split.
Qed.

Lemma update_user_role_consistent user_id body current_user db :
  consistent db ->
  consistent (snd (update_user_role user_id body current_user db)).
Proof.
  intros Hok. unfold update_user_role.
  destruct (is_not_admin current_user); [exact Hok|].
  apply (admin_update_consistent
           (UserDB.with_role (RoleEnum.value (UserUpdateRole.role body))));
    [|exact Hok].
  intros u. repeat split.
Qed.

Lemma delete_user_consistent user_name current_user db :
  consistent db -> consistent (snd (delete_user user_name current_user db)).
Proof.
  intros Hok. unfold delete_user.
  destruct (is_not_admin current_user); [exact Hok|].
  unfold bind, query_users.
  destruct (first _) as [u0|]; [|exact Hok].
  simpl. now apply (delete_user_row_consistent u0).
Qed.

Lemma create_note_consistent note current_user db :
  consistent db -> consistent (snd (create_note note current_user db)).
Proof. intros Hok. unfold create_note. now apply add_note_consistent. Qed.

Lemma update_note_consistent note_id body current_user db :
  consistent db -> consistent (snd (update_note note_id body current_user db)).
Proof.
  intros Hok. unfold update_note, bind, query_notes.
  destruct (first _) as [n|]; [|exact Hok].
  destruct (not_owner_nor_admin n current_user); [exact Hok|].
  now apply commit_note_consistent.
Qed.

Lemma delete_note_consistent note_id current_user db :
  consistent db -> consistent (snd (delete_note note_id current_user db)).
Proof.
  intros Hok. unfold delete_note, bind, query_notes.
  destruct (first _) as [n|]; [|exact Hok].
  destruct (not_owner_nor_admin n current_user); [exact Hok|].
  simpl. now apply (delete_note_row_consistent n).
Qed.


(** * Further properties of the handlers *)

(** ** Lookups under the unique constraints *)

Lemma user_lookup_by_name (db : Database) (u : UserDB.row) (name : string) :
  NoDup (map UserDB.username (users db)) -> In u (users db) ->
  UserDB.username u = name ->
  first (filter (fun r => String.eqb (UserDB.username r) name) (users db))
    = Some u.
Proof.
  intros Hnd Hin Hname. apply first_filter_the; [assumption | |].
  - now apply String.eqb_eq.
  - intros y Hy Hp. apply String.eqb_eq in Hp.
    apply (NoDup_map_eq UserDB.username (users db)); auto. congruence.
Qed.

Lemma user_lookup_by_id (db : Database) (u : UserDB.row) (user_id : Z) :
  NoDup (map UserDB.id (users db)) -> In u (users db) ->
  UserDB.id u = user_id ->
  first (filter (fun r => Z.eqb (UserDB.id r) user_id) (users db)) = Some u.
Proof.
  intros Hnd Hin Hid. apply first_filter_the; [assumption | |].
  - now apply Z.eqb_eq.
  - intros y Hy Hp. apply Z.eqb_eq in Hp.
    apply (NoDup_map_eq UserDB.id (users db)); auto. congruence.
Qed.

(** ** Login *)

Lemma login_success {crypt : CryptContext} now name password db u :
  NoDup (map UserDB.username (users db)) -> In u (users db) ->
  UserDB.username u = name ->
  verify password (UserDB.hashed_password u) = true ->
  login_for_access_token now name password db
  = (Return (mkTokenResponse
               (create_access_token now (pyjwt.mkClaims (Some name) None)
                                    (Some 1800))
               "bearer" (UserDB.api_key u)), db).
Proof.
  intros Hnd Hin Hname Hver.
  unfold login_for_access_token, bind, query_users.
  rewrite (user_lookup_by_name db u name Hnd Hin Hname).
  unfold verify_password. rewrite Hver. simpl. now rewrite Hname.
Qed.

Lemma login_token_decodes now later name :
  pyjwt.decode later
    (create_access_token now (pyjwt.mkClaims (Some name) None) (Some 1800))
    SECRET_KEY [ALGORITHM]
  = if now + 1800 <=? later then pyjwt.ExpiredSignatureError
    else pyjwt.Payload (pyjwt.mkClaims (Some name) (Some (now + 1800))).
Proof. rewrite decode_issued. reflexivity. Qed.

(** X1.  A failed login does not tell an unknown username from a wrong
    password: whenever no stored user of that name has a hash the password
    verifies against, the answer is the same 401 and nothing is written. *)
Theorem X1_login_failure_is_uniform
    (crypt : CryptContext) (now : datetime) (name password : string)
    (db : Database) :
  (forall u, In u (users db) -> UserDB.username u = name ->
             verify password (UserDB.hashed_password u) = false) ->
  login_for_access_token now name password db
  = (Raise (HTTPException 401 "Incorrect username or password"), db).
Proof.
  intros Hbad. unfold login_for_access_token, bind, query_users.
  destruct (first _) as [user|] eqn:Hf; [|reflexivity].
  apply first_filter_Some in Hf. destruct Hf as [Hin Hname].
  apply String.eqb_eq in Hname.
  unfold verify_password. now rewrite (Hbad user Hin Hname).
Qed.

Lemma X1_witness :
  login_for_access_token (H := sample_crypt) 0 "nobody" "guess" sample_db
  = login_for_access_token (H := sample_crypt) 0 "alice" "guess" sample_db.
Proof.
  rewrite (X1_login_failure_is_uniform sample_crypt 0 "nobody" "guess" sample_db).
  - rewrite (X1_login_failure_is_uniform sample_crypt 0 "alice" "guess"
               sample_db); [reflexivity|].
    intros u [<- | [<- | [<- | []]]]; simpl; intros E;
      try discriminate; reflexivity.
  - intros u [<- | [<- | [<- | []]]]; simpl; intros E; discriminate.
Defined.





(** X4.  Login does not look at [is_active]: a deactivated user with the
    right password still gets a token and the API key back, but the token
    is refused by the resolver while it is unexpired, with the 401 of an
    unknown user. *)
Theorem X4_login_ignores_is_active
    (crypt : CryptContext) (now later : datetime) (password : string)
    (db : Database) (u : UserDB.row) (api_key : option string) :
  consistent db -> In u (users db) -> UserDB.is_active u = false ->
  verify password (UserDB.hashed_password u) = true ->
  exists r,
    login_for_access_token now (UserDB.username u) password db = (Return r, db)
    /\ login_api_key r = UserDB.api_key u
    /\ (later < now + 1800 ->
        get_current_user later (Some (access_token r)) api_key db
        = (Raise (HTTPException 401 "Invalid authentication credentials"), db)).
Proof.
  intros Hok Hin Hoff Hver.
  pose proof (usernames_unique db Hok) as Hnd.
  eexists. split; [apply (login_success now _ password db u Hnd Hin eq_refl Hver)|].
  simpl. split; [reflexivity|].
  intros Hlater.
  destruct (inactive_no_credential_resolves later db u Hok Hin Hoff)
    as [Hbearer _].
  apply (Hbearer _ (pyjwt.mkClaims (Some (UserDB.username u)) (Some (now + 1800))));
    [|reflexivity].
  rewrite login_token_decodes.
  destruct (Z.leb_spec (now + 1800) later); [lia | reflexivity].
Qed.

Lemma X4_witness :
  exists r,
    login_for_access_token (H := sample_crypt) 0 "carol" carol_password sample_db
      = (Return r, sample_db)
    /\ login_api_key r = Some "key-carol"
    /\ (60 < 0 + 1800 ->
        get_current_user 60 (Some (access_token r)) None sample_db
        = (Raise (HTTPException 401 "Invalid authentication credentials"),
           sample_db)).
Proof.
  apply (X4_login_ignores_is_active sample_crypt 0 60 carol_password sample_db
           carol None sample_db_consistent).
  - simpl; auto.
  - reflexivity.
  - reflexivity.
Defined.

(** ** The constraints as an invariant of the handlers *)

(** X5.  Every handler that writes keeps the tables within the schema's
    constraints (primary keys unique, usernames, emails and non-null API
    keys unique), whether it succeeds or fails. *)
Theorem X5_handlers_keep_the_constraints
    (crypt : CryptContext) (current_user : UserDB.row) (db : Database) :
  consistent db ->
  (forall user rnd, consistent (snd (register_user user rnd db)))
  /\ (forall user_id,
        consistent (snd (deactivate_user user_id current_user db)))
  /\ (forall user_id new_password rnd,
        consistent
          (snd (reset_password user_id new_password rnd current_user db)))
  /\ (forall user_id body,
        consistent (snd (update_user_role user_id body current_user db)))
  /\ (forall user_name, consistent (snd (delete_user user_name current_user db)))
  /\ (forall note, consistent (snd (create_note note current_user db)))
  /\ (forall note_id body,
        consistent (snd (update_note note_id body current_user db)))
  /\ (forall note_id, consistent (snd (delete_note note_id current_user db))).
Proof.
  intros Hok.
  split; [intros; now apply register_user_consistent|].
  split; [intros; now apply deactivate_user_consistent|].
  split; [intros; now apply reset_password_consistent|].
  split; [intros; now apply update_user_role_consistent|].
  split; [intros; now apply delete_user_consistent|].
  split; [intros; now apply create_note_consistent|].
  split; [intros; now apply update_note_consistent|].
  intros; now apply delete_note_consistent.
Qed.

Lemma X5_witness :
  consistent (snd (register_user (H := sample_crypt) dave_form dave_entropy
                                 sample_db))
  /\ consistent (snd (delete_user "alice" root sample_db))
  /\ consistent (snd (create_note (NoteCreate.mk "t" "c" true) alice sample_db)).
Proof.
  pose proof (X5_handlers_keep_the_constraints sample_crypt root sample_db
                sample_db_consistent) as [Hreg [_ [_ [_ [Hdel _]]]]].
  pose proof (X5_handlers_keep_the_constraints sample_crypt alice sample_db
                sample_db_consistent) as [_ [_ [_ [_ [_ [Hnote _]]]]]].
  split; [apply Hreg | split; [apply Hdel | apply Hnote]].
Defined.

(** ** What the resolver returns *)

(** X6.  The resolver only reads.  Whoever it resolves is a stored row
    that is active, and is the one the credential names: the subject of the
    decoded token on the bearer path, the holder of the presented key on
    the API-key path. *)
Theorem X6_resolved_identity_is_stored_active_and_named
    (now : datetime) (token : option pyjwt.Token) (api_key : option string)
    (db : Database) :
  snd (get_current_user now token api_key db) = db
  /\ forall u,
       fst (get_current_user now token api_key db) = Return u ->
       In u (users db) /\ UserDB.is_active u = true
       /\ match truthy_token token with
          | Some tok =>
              exists payload,
                pyjwt.decode now tok SECRET_KEY [ALGORITHM]
                  = pyjwt.Payload payload
                /\ pyjwt.sub payload = Some (UserDB.username u)
          | None =>
              exists k, truthy_str api_key = Some k
                        /\ UserDB.api_key u = Some k
          end.
Proof.
  split; [apply get_current_user_readonly|].
  intros u Hres.
  destruct (get_current_user_active _ _ _ _ _ Hres) as [Hin Hact].
  split; [exact Hin | split; [exact Hact|]].
  revert Hres. unfold get_current_user.
  destruct (truthy_token token) as [tok|].
  - destruct (pyjwt.decode now tok SECRET_KEY [ALGORITHM]) as [payload| |];
      simpl; try discriminate.
    destruct (pyjwt.sub payload) as [name|] eqn:Hsub; simpl; [|discriminate].
    unfold bind, query_users.
    destruct (first _) as [user|] eqn:Hf; simpl; [|discriminate].
    destruct (UserDB.is_active user); simpl; [|discriminate].
    intros E. injection E as <-.
    apply first_filter_Some in Hf. destruct Hf as [_ Hname].
    apply String.eqb_eq in Hname.
    exists payload. split; [reflexivity | congruence].
  - destruct (truthy_str api_key) as [k|]; simpl; [|discriminate].
    unfold bind, query_users.
    destruct (first _) as [user|] eqn:Hf; simpl; [|discriminate].
    destruct (UserDB.is_active user); simpl; [|discriminate].
    intros E. injection E as <-.
    apply first_filter_Some in Hf. destruct Hf as [_ Hkey].
    unfold opt_eqb in Hkey.
    destruct (UserDB.api_key user) as [k'|]; [|discriminate].
    apply String.eqb_eq in Hkey. subst k'.
    exists k. split; reflexivity.
Qed.

(** ** Registration *)

Lemma register_user_row {crypt : CryptContext} user rnd db new db' :
  register_user user rnd db = (Return new, db') ->
  new = UserDB.mk (next_id (map UserDB.id (users db)))
                  (UserCreate.username user) (UserCreate.full_name user)
                  (UserCreate.email user)
                  (get_password_hash rnd (UserCreate.password user))
                  (RoleEnum.value (UserCreate.role user)) true
                  (Some (generate_api_key rnd)).
Proof.
  unfold register_user, bind, query_users.
  destruct (first _); [discriminate|]. unfold add_user.
  destruct (existsb _ _); [discriminate|].
  intros E. injection E as <- _. reflexivity.
Qed.

(** X7.  A successful registration appends exactly one row: its id is
    above every id in use, it is active, it carries the requested role, the
    hash of the password and the generated API key; nothing else changes.
    From then on that API key, sent without a token, resolves to the new
    user. *)
Theorem X7_registered_user_is_stored_and_resolves
    (crypt : CryptContext) (user : UserCreate.t) (rnd : Entropy)
    (db db' : Database) (new : UserDB.row) (now : datetime) :
  consistent db ->
  register_user user rnd db = (Return new, db') ->
  db' = mkDatabase (users db ++ [new]) (notes db) (logs db)
  /\ (forall u, In u (users db) -> UserDB.id u < UserDB.id new)
  /\ UserDB.username new = UserCreate.username user
  /\ UserDB.hashed_password new
     = hash (bcrypt_salt rnd) (UserCreate.password user)
  /\ UserDB.role new = RoleEnum.value (UserCreate.role user)
  /\ UserDB.is_active new = true
  /\ UserDB.api_key new = Some (token_urlsafe rnd)
  /\ (token_urlsafe rnd <> "" ->
      get_current_user now None (Some (token_urlsafe rnd)) db'
      = (Return new, db')).
Proof.
  intros Hok Hreg.
  pose proof (register_user_consistent user rnd db Hok) as Hok'.
  rewrite Hreg in Hok'. simpl in Hok'.
  destruct (register_user_success _ _ _ _ _ Hreg) as [_ [_ [_ [_ Hdb']]]].
  pose proof (register_user_row _ _ _ _ _ Hreg) as Hrow.
  split; [exact Hdb'|].
  split.
  { intros u Hu. rewrite Hrow. simpl. apply next_id_above. now apply in_map. }
  rewrite Hrow at 1 2 3 4 5. simpl.
  repeat (split; [reflexivity|]).
  intros Hkey. apply api_key_path_accepts; try reflexivity; try assumption.
  - apply (api_keys_unique db' Hok').
  - rewrite Hdb'. simpl. apply in_or_app. right. now left.
  - now rewrite Hrow.
  - now rewrite Hrow.
Qed.

Lemma X7_witness :
  sample_after_dave
    = mkDatabase (users sample_db ++ [dave]) (notes sample_db) (logs sample_db)
  /\ get_current_user 0 None (Some "key-dave") sample_after_dave
     = (Return dave, sample_after_dave).
Proof.
  destruct (X7_registered_user_is_stored_and_resolves sample_crypt dave_form
              dave_entropy sample_db sample_after_dave dave 0
              sample_db_consistent eq_refl)
    as [Hdb [_ [_ [_ [_ [_ [_ Hkey]]]]]]].
  split; [exact Hdb|]. apply Hkey. discriminate.
Defined.

(** X8.  Only the username is checked before the insert.  A registration
    under a fresh username whose email, or whose generated API key, is
    already stored is stopped by the unique constraint of the table: it
    fails with the storage error, not with the 400 of a taken username, and
    no row is written. *)
Theorem X8_taken_email_or_key_is_a_storage_failure
    (crypt : CryptContext) (user : UserCreate.t) (rnd : Entropy)
    (db : Database) :
  (forall u, In u (users db) ->
             UserDB.username u <> UserCreate.username user) ->
  (exists u, In u (users db)
             /\ (UserDB.email u = UserCreate.email user
                 \/ UserDB.api_key u = Some (token_urlsafe rnd))) ->
  register_user user rnd db = (Raise IntegrityError, db).
Proof.
  intros Hfresh [u [Hin Hdup]].
  unfold register_user, bind, query_users.
  rewrite user_lookup_absent.
  - unfold add_user.
    assert (Hex : existsb
              (violates_unique
                 (UserDB.mk (next_id (map UserDB.id (users db)))
                    (UserCreate.username user) (UserCreate.full_name user)
                    (UserCreate.email user)
                    (get_password_hash rnd (UserCreate.password user))
                    (RoleEnum.value (UserCreate.role user)) true
                    (Some (generate_api_key rnd))))
              (users db) = true).
    { apply existsb_exists. exists u. split; [exact Hin|].
      unfold violates_unique. simpl. destruct Hdup as [Hmail | Hkey].
      - rewrite (proj2 (String.eqb_eq _ _) Hmail). now rewrite orb_true_r.
      - unfold generate_api_key, opt_eqb. rewrite Hkey, String.eqb_refl.
        now rewrite orb_true_r. }
    now rewrite Hex.
  - intros y Hy. apply String.eqb_neq. now apply Hfresh.
Qed.

Lemma X8_witness :
  register_user (H := sample_crypt)
    (UserCreate.mk "erin" "Erin" "alice@example.org" "pw" USER)
    (mkEntropy "salt" "key-erin") sample_db
  = (Raise IntegrityError, sample_db).
Proof.
  apply (X8_taken_email_or_key_is_a_storage_failure sample_crypt).
  - intros u [<- | [<- | [<- | []]]]; simpl; discriminate.
  - exists alice. split; [simpl; auto | left; reflexivity].
Defined.

(** X9.  Registration needs no identity and stores the role the request
    asks for.  So a successful registration with role admin yields a user
    who passes the admin gate at once: it lists all users, and none of the
    admin-only operations answers it with 403. *)
Theorem X9_registration_grants_the_requested_role
    (crypt : CryptContext) (user : UserCreate.t) (rnd : Entropy)
    (db db' : Database) (new : UserDB.row) :
  register_user user rnd db = (Return new, db') ->
  UserCreate.role user = ADMIN ->
  get_all_users new db' = (Return (users db'), db')
  /\ fst (get_logs new db') = Return (logs db')
  /\ forall op, status_of (user_operation_outcome op new db') <> Some 403.
Proof.
  intros Hreg Hrole.
  destruct (register_user_success _ _ _ _ _ Hreg) as [_ [_ [Hr _]]].
  rewrite Hrole in Hr.
  assert (Hgate : is_not_admin new = false).
  { unfold is_not_admin, ADMIN_value. now rewrite Hr. }
  split; [|split].
  - unfold get_all_users. rewrite Hgate. unfold query_users.
    now rewrite filter_all.
  - unfold get_logs. now rewrite Hgate.
  - intros op.
    destruct op; simpl;
      unfold get_all_users, deactivate_user, reset_password, update_user_role,
        delete_user; rewrite Hgate;
      unfold bind, query_users; try (simpl; discriminate);
      destruct (first _); simpl; discriminate.
Qed.

Lemma X9_witness :
  get_all_users dave sample_after_dave
  = (Return [root; alice; carol; dave], sample_after_dave).
Proof.
  apply (X9_registration_grants_the_requested_role sample_crypt dave_form
           dave_entropy sample_db sample_after_dave dave eq_refl eq_refl).
Defined.

(** ** Creating, listing and writing notes *)

Lemma get_notes_run (viewer : UserDB.row) (db : Database) :
  get_notes viewer db = (Return (filter (visible viewer) (notes db)), db).
Proof. unfold get_notes, bind, query_notes, ret. now rewrite filter_all. Qed.

Lemma visible_iff (viewer : UserDB.row) (n : NoteDB.row) :
  visible viewer n = true <->
  truthy_bool (NoteDB.is_private n) = false
  \/ NoteDB.owner n = UserDB.username viewer
  \/ UserDB.role viewer = RoleEnum.value ADMIN.
Proof.
  unfold visible, ADMIN_value.
  rewrite !orb_true_iff, negb_true_iff, !String.eqb_eq. tauto.
Qed.

(** X10.  Creating a note appends one row and leaves the others as they
    were: the row gets an id above every id in use, the fields of the
    request and the caller as owner.  In the list that follows, the new
    note is shown to a viewer exactly when it is not private, or the viewer
    has the author's username, or the viewer is an admin. *)
Theorem X10_created_note_is_listed_by_the_visibility_rule
    (note : NoteCreate.t) (author viewer : UserDB.row) (db : Database) :
  exists new db',
    create_note note author db = (Return new, db')
    /\ db' = mkDatabase (users db) (notes db ++ [new]) (logs db)
    /\ (forall n, In n (notes db) -> NoteDB.id n < NoteDB.id new)
    /\ NoteDB.title new = Some (NoteCreate.title note)
    /\ NoteDB.content new = Some (NoteCreate.content note)
    /\ NoteDB.is_private new = Some (NoteCreate.is_private note)
    /\ NoteDB.owner new = UserDB.username author
    /\ exists listed,
         get_notes viewer db' = (Return listed, db')
         /\ (In new listed <->
             NoteCreate.is_private note = false
             \/ UserDB.username author = UserDB.username viewer
             \/ UserDB.role viewer = RoleEnum.value ADMIN).
Proof.
  eexists. eexists. split; [reflexivity|].
  split; [reflexivity|].
  split.
  { intros n Hn. simpl. apply next_id_above. now apply in_map. }
  repeat (split; [reflexivity|]).
  eexists. split; [apply get_notes_run|].
  rewrite filter_In, visible_iff. simpl. split.
  - intros [_ H]. exact H.
  - intros H. split; [|exact H]. apply in_or_app. right. now left.
Qed.

Lemma not_owner_nor_admin_true (n : NoteDB.row) (u : UserDB.row) :
  not_owner_nor_admin n u = true <->
  NoteDB.owner n <> UserDB.username u
  /\ UserDB.role u <> RoleEnum.value ADMIN.
Proof.
  unfold not_owner_nor_admin, ADMIN_value.
  rewrite andb_true_iff, !negb_true_iff, !String.eqb_neq. tauto.
Qed.

Lemma not_owner_nor_admin_false (n : NoteDB.row) (u : UserDB.row) :
  not_owner_nor_admin n u = false <->
  NoteDB.owner n = UserDB.username u
  \/ UserDB.role u = RoleEnum.value ADMIN.
Proof.
  unfold not_owner_nor_admin, ADMIN_value.
  rewrite andb_false_iff, !negb_false_iff, !String.eqb_eq. tauto.
Qed.

Lemma note_lookup_by_id (db : Database) (n : NoteDB.row) (note_id : Z) :
  NoDup (map NoteDB.id (notes db)) -> In n (notes db) ->
  NoteDB.id n = note_id ->
  first (filter (fun r => Z.eqb (NoteDB.id r) note_id) (notes db)) = Some n.
Proof. intros Hnd Hin <-. now apply note_lookup_the. Qed.

(** X11.  On a note that exists, update and delete are decided by the
    caller alone: a caller who is neither the owner nor an admin gets 403
    from both and nothing is written; the owner, and any admin, get
    through. *)
Theorem X11_note_write_needs_owner_or_admin
    (note_id : Z) (body : NoteUpdate.t) (current_user : UserDB.row)
    (db : Database) (n : NoteDB.row) :
  NoDup (map NoteDB.id (notes db)) -> In n (notes db) ->
  NoteDB.id n = note_id ->
  (NoteDB.owner n <> UserDB.username current_user
   /\ UserDB.role current_user <> RoleEnum.value ADMIN ->
   delete_note note_id current_user db
     = (Raise (HTTPException 403 "Not enough permissions"), db)
   /\ update_note note_id body current_user db
     = (Raise (HTTPException 403 "Not enough permissions"), db))
  /\ (NoteDB.owner n = UserDB.username current_user
      \/ UserDB.role current_user = RoleEnum.value ADMIN ->
      fst (delete_note note_id current_user db) = Return n
      /\ fst (update_note note_id body current_user db)
         = Return (fold_left setattr (NoteUpdate.dict_exclude_unset body) n)).
Proof.
  intros Hnd Hin Hid.
  pose proof (note_lookup_by_id db n note_id Hnd Hin Hid) as Hfind.
  split; intros Hwho.
  - apply not_owner_nor_admin_true in Hwho.
    unfold delete_note, update_note, bind, query_notes.
    rewrite Hfind, Hwho. split; reflexivity.
  - apply not_owner_nor_admin_false in Hwho.
    unfold delete_note, update_note, bind, query_notes.
    rewrite Hfind, Hwho. split; reflexivity.
Qed.

Lemma X11_witness :
  delete_note 2 alice sample_db
    = (Raise (HTTPException 403 "Not enough permissions"), sample_db)
  /\ fst (delete_note 1 alice sample_db) = Return alice_note
  /\ fst (delete_note 1 root sample_db) = Return alice_note.
Proof.
  assert (Hnd : NoDup (map NoteDB.id (notes sample_db)))
    by apply (note_ids_unique sample_db sample_db_consistent).
  split; [|split].
  - apply (proj1 (X11_note_write_needs_owner_or_admin 2
                    (NoteUpdate.mk None None None) alice sample_db carol_note
                    Hnd (or_intror (or_introl eq_refl)) eq_refl)).
    split; simpl; discriminate.
  - apply (proj2 (X11_note_write_needs_owner_or_admin 1
                    (NoteUpdate.mk None None None) alice sample_db alice_note
                    Hnd (or_introl eq_refl) eq_refl)).
    left. reflexivity.
  - apply (proj2 (X11_note_write_needs_owner_or_admin 1
                    (NoteUpdate.mk None None None) root sample_db alice_note
                    Hnd (or_introl eq_refl) eq_refl)).
    right. reflexivity.
Defined.

Lemma delete_note_success note_id current_user db n db' :
  delete_note note_id current_user db = (Return n, db') ->
  In n (notes db) /\ NoteDB.id n = note_id
  /\ db' = snd (delete_note_row n db).
Proof.
  unfold delete_note, bind, query_notes.
  destruct (first _) as [m|] eqn:Hf; [|discriminate].
  apply first_filter_Some in Hf. destruct Hf as [Hin Hid].
  apply Z.eqb_eq in Hid.
  destruct (not_owner_nor_admin m current_user); [discriminate|].
  simpl. intros E. injection E as <- <-. auto.
Qed.

(** X12.  A successful delete returns the stored note and removes that
    note and no other; users and logs are untouched.  The id is then
    unknown: a second delete or an update of it gives 404 to any caller. *)
Theorem X12_delete_note_removes_that_note_only
    (note_id : Z) (current_user : UserDB.row) (db db' : Database)
    (n : NoteDB.row) :
  NoDup (map NoteDB.id (notes db)) ->
  delete_note note_id current_user db = (Return n, db') ->
  In n (notes db) /\ NoteDB.id n = note_id
  /\ users db' = users db /\ logs db' = logs db
  /\ (forall m, In m (notes db') <-> In m (notes db) /\ m <> n)
  /\ (forall anyone body,
        delete_note note_id anyone db'
          = (Raise (HTTPException 404 "Note not found"), db')
        /\ update_note note_id body anyone db'
          = (Raise (HTTPException 404 "Note not found"), db')).
Proof.
  intros Hnd Hrun.
  destruct (delete_note_success _ _ _ _ _ Hrun) as [Hin [Hid Hdb']].
  assert (Hrest : forall m, In m (notes db') <-> In m (notes db) /\ m <> n).
  { intros m. rewrite Hdb'. simpl. rewrite filter_In, negb_true_iff, Z.eqb_neq.
    split; intros [Hm Hne]; (split; [exact Hm|]).
    - intros ->. now apply Hne.
    - intros E. apply Hne.
      now apply (NoDup_map_eq NoteDB.id (notes db)). }
  split; [exact Hin | split; [exact Hid|]].
  split; [now rewrite Hdb' | split; [now rewrite Hdb' | split; [exact Hrest|]]].
  intros anyone body.
  assert (Hgone : first (filter (fun r => Z.eqb (NoteDB.id r) note_id)
                                (notes db')) = None).
  { apply note_lookup_absent. intros m Hm E.
    apply Hrest in Hm. destruct Hm as [Hm Hne]. apply Hne.
    apply (NoDup_map_eq NoteDB.id (notes db)); auto. congruence. }
  unfold delete_note, update_note, bind, query_notes. rewrite Hgone.
  split; reflexivity.
Qed.

Lemma X12_witness :
  let db' := snd (delete_note 1 alice sample_db) in
  notes db' = [carol_note]
  /\ delete_note 1 alice db'
     = (Raise (HTTPException 404 "Note not found"), db').
Proof.
  intros db'.
  destruct (X12_delete_note_removes_that_note_only 1 alice sample_db db'
              alice_note
              (note_ids_unique sample_db sample_db_consistent) eq_refl)
    as [_ [_ [_ [_ [_ Hgone]]]]].
  split; [reflexivity|].
  apply (Hgone alice (NoteUpdate.mk None None None)).
Defined.

Lemma setattr_fields (body : NoteUpdate.t) (n : NoteDB.row) :
  fold_left setattr (NoteUpdate.dict_exclude_unset body) n
  = NoteDB.mk (NoteDB.id n)
      (match NoteUpdate.title body with Some v => v | None => NoteDB.title n end)
      (match NoteUpdate.content body with
       | Some v => v
       | None => NoteDB.content n
       end)
      (NoteDB.owner n)
      (match NoteUpdate.is_private body with
       | Some v => v
       | None => NoteDB.is_private n
       end).
Proof. destruct body as [[t|] [c|] [p|]], n; reflexivity. Qed.

(** X13.  An update is partial: each of title, content and is_private takes
    the value the request sets, an explicit null included, and keeps its
    stored value when the request leaves it out; id and owner stay.  The
    row stored under the id is the note returned, every other note is
    unchanged, and so are users and logs. *)
Theorem X13_update_note_writes_only_the_fields_set
    (note_id : Z) (body : NoteUpdate.t) (current_user : UserDB.row)
    (db db' : Database) (r : NoteDB.row) :
  NoDup (map NoteDB.id (notes db)) ->
  update_note note_id body current_user db = (Return r, db') ->
  exists n,
    In n (notes db) /\ NoteDB.id n = note_id
    /\ r = NoteDB.mk (NoteDB.id n)
             (match NoteUpdate.title body with
              | Some v => v
              | None => NoteDB.title n
              end)
             (match NoteUpdate.content body with
              | Some v => v
              | None => NoteDB.content n
              end)
             (NoteDB.owner n)
             (match NoteUpdate.is_private body with
              | Some v => v
              | None => NoteDB.is_private n
              end)
    /\ users db' = users db /\ logs db' = logs db
    /\ (forall m, In m (notes db') <->
                  m = r \/ (In m (notes db) /\ NoteDB.id m <> note_id)).
Proof.
  intros Hnd Hrun.
  destruct (update_note_success _ _ _ _ _ _ Hrun)
    as [n [Hin [Hid [_ [Hr Hdb']]]]].
  rewrite setattr_fields in Hr.
  assert (Hrid : NoteDB.id r = note_id) by (rewrite Hr; exact Hid).
  exists n. split; [exact Hin | split; [exact Hid | split; [exact Hr|]]].
  split; [now rewrite Hdb' | split; [now rewrite Hdb'|]].
  intros m. rewrite Hdb'. simpl. rewrite in_map_iff, Hrid. split.
  - intros [x [Hx Hxin]].
    destruct (Z.eqb_spec (NoteDB.id x) note_id) as [E|E].
    + left. now symmetry.
    + right. subst m. tauto.
  - intros [-> | [Hm Hne]].
    + exists n. split; [|exact Hin]. now rewrite (proj2 (Z.eqb_eq _ _) Hid).
    + exists m. split; [|exact Hm]. now rewrite (proj2 (Z.eqb_neq _ _) Hne).
Qed.

Lemma X13_witness :
  let body := NoteUpdate.mk (Some (Some "z")) None (Some None) in
  let r := NoteDB.mk 1 (Some "z") (Some "body") "alice" None in
  update_note 1 body alice sample_db
    = (Return r, mkDatabase [root; alice; carol] [r; carol_note] [])
  /\ exists n, In n (notes sample_db) /\ NoteDB.id n = 1
               /\ NoteDB.content r = NoteDB.content n
               /\ NoteDB.owner r = NoteDB.owner n.
Proof.
  intros body r. split; [reflexivity|].
  destruct (X13_update_note_writes_only_the_fields_set 1 body alice sample_db
              (mkDatabase [root; alice; carol] [r; carol_note] []) r
              (note_ids_unique sample_db sample_db_consistent) eq_refl)
    as [n [Hin [Hid [Hr _]]]].
  exists n. split; [exact Hin | split; [exact Hid|]].
  injection Hr as _ Hc Ho. split; [exact Hc | exact Ho].
Defined.

(** ** Null fields and the Note response model *)






(** ** Which tables a handler writes *)

(** X15.  The note handlers never write users or logs, the user handlers
    never write notes or logs, and the reading handlers, the resolver and
    login write nothing at all, on success and on failure alike. *)
Theorem X15_each_handler_writes_its_own_table_only
    (crypt : CryptContext) (current_user : UserDB.row) (db : Database) :
  (forall note note_id body db',
     db' = snd (create_note note current_user db)
     \/ db' = snd (update_note note_id body current_user db)
     \/ db' = snd (delete_note note_id current_user db) ->
     users db' = users db /\ logs db' = logs db)
  /\ (forall user rnd user_id new_password body user_name db',
        db' = snd (register_user user rnd db)
        \/ db' = snd (deactivate_user user_id current_user db)
        \/ db' = snd (reset_password user_id new_password rnd current_user db)
        \/ db' = snd (update_user_role user_id body current_user db)
        \/ db' = snd (delete_user user_name current_user db) ->
        notes db' = notes db /\ logs db' = logs db)
  /\ (forall now token api_key name password,
        snd (get_notes current_user db) = db
        /\ snd (get_all_users current_user db) = db
        /\ snd (get_logs current_user db) = db
        /\ snd (get_current_user now token api_key db) = db
        /\ snd (login_for_access_token now name password db) = db).
Proof.
  split; [|split].
  - intros note note_id body db' [-> | [-> | ->]].
    + split; reflexivity.
    + unfold update_note, bind, query_notes.
      destruct (first _) as [n|]; [|split; reflexivity].
      destruct (not_owner_nor_admin n current_user); split; reflexivity.
    + unfold delete_note, bind, query_notes.
      destruct (first _) as [n|]; [|split; reflexivity].
      destruct (not_owner_nor_admin n current_user); split; reflexivity.
  - intros user rnd user_id new_password body user_name db'
           [-> | [-> | [-> | [-> | ->]]]].
    + unfold register_user, bind, query_users.
      destruct (first _); [split; reflexivity|].
      unfold add_user. destruct (existsb _ _); split; reflexivity.
    + unfold deactivate_user.
      destruct (is_not_admin current_user); [split; reflexivity|].
      unfold bind, query_users. destruct (first _); split; reflexivity.
    + unfold reset_password.
      destruct (is_not_admin current_user); [split; reflexivity|].
      unfold bind, query_users. destruct (first _); split; reflexivity.
    + unfold update_user_role.
      destruct (is_not_admin current_user); [split; reflexivity|].
      unfold bind, query_users. destruct (first _); split; reflexivity.
    + unfold delete_user.
      destruct (is_not_admin current_user); [split; reflexivity|].
      unfold bind, query_users. destruct (first _); split; reflexivity.
  - intros now token api_key name password.
    split; [now rewrite get_notes_run|].
    split; [unfold get_all_users;
            destruct (is_not_admin current_user); reflexivity|].
    split; [unfold get_logs;
            destruct (is_not_admin current_user); reflexivity|].
    split; [apply get_current_user_readonly|].
    unfold login_for_access_token, bind, query_users.
    destruct (first _) as [user|]; [|reflexivity].
    destruct (negb _); reflexivity.
Qed.

(** ** The admin updates, exactly *)

Lemma rewrite_one_row (f : UserDB.row -> UserDB.row) (user_id : Z)
    (l : list UserDB.row) (u0 : UserDB.row) :
  NoDup (map UserDB.id l) -> In u0 l -> UserDB.id u0 = user_id ->
  UserDB.id (f u0) = user_id ->
  map (fun r => if Z.eqb (UserDB.id r) (UserDB.id (f u0)) then f u0 else r) l
  = map (fun r => if Z.eqb (UserDB.id r) user_id then f r else r) l.
Proof.
  intros Hnd Hin Hid Hfid. apply map_ext_in. intros r Hr. rewrite Hfid.
  destruct (Z.eqb_spec (UserDB.id r) user_id) as [E|E]; [|reflexivity].
  now rewrite (NoDup_map_eq UserDB.id l r u0 Hnd Hr Hin) by congruence.
Qed.

(** X16.  For an admin caller and a stored target, each of deactivate,
    reset password and change role succeeds, rewrites exactly that row and
    exactly one column of it (is_active, hashed_password, role), and returns
    the rewritten row.  Every other row, the order of the table, and the
    target's id, username, email and API key are as before. *)
Theorem X16_admin_updates_rewrite_one_column_of_one_row
    (crypt : CryptContext) (user_id : Z) (current_user u0 : UserDB.row)
    (db : Database) :
  NoDup (map UserDB.id (users db)) ->
  UserDB.role current_user = RoleEnum.value ADMIN ->
  In u0 (users db) -> UserDB.id u0 = user_id ->
  let rewritten f :=
    mkDatabase
      (map (fun r => if Z.eqb (UserDB.id r) user_id then f r else r) (users db))
      (notes db) (logs db) in
  deactivate_user user_id current_user db
    = (Return (UserDB.with_is_active false u0),
       rewritten (UserDB.with_is_active false))
  /\ (forall new_password rnd,
        reset_password user_id new_password rnd current_user db
        = (Return (UserDB.with_hashed_password
                     (hash (bcrypt_salt rnd) new_password) u0),
           rewritten (UserDB.with_hashed_password
                        (hash (bcrypt_salt rnd) new_password))))
  /\ (forall body,
        update_user_role user_id body current_user db
        = (Return (UserDB.with_role
                     (RoleEnum.value (UserUpdateRole.role body)) u0),
           rewritten (UserDB.with_role
                        (RoleEnum.value (UserUpdateRole.role body))))).
Proof.
  intros Hnd Hrole Hin Hid rewritten.
  assert (Hgate : is_not_admin current_user = false).
  { unfold is_not_admin, ADMIN_value. now rewrite Hrole. }
  pose proof (user_lookup_by_id db u0 user_id Hnd Hin Hid) as Hfind.
  split; [|split].
  - unfold deactivate_user, bind, query_users. rewrite Hgate, Hfind.
    unfold commit_user, rewritten. f_equal. f_equal.
    now apply rewrite_one_row.
  - intros new_password rnd.
    unfold reset_password, bind, query_users. rewrite Hgate, Hfind.
    unfold commit_user, rewritten, get_password_hash. f_equal. f_equal.
    now apply (rewrite_one_row
                 (UserDB.with_hashed_password
                    (hash (bcrypt_salt rnd) new_password))).
  - intros body.
    unfold update_user_role, bind, query_users. rewrite Hgate, Hfind.
    unfold commit_user, rewritten. f_equal. f_equal.
    now apply (rewrite_one_row
                 (UserDB.with_role (RoleEnum.value (UserUpdateRole.role body)))).
Qed.

Lemma X16_witness :
  deactivate_user 2 root sample_db
    = (Return (UserDB.with_is_active false alice), sample_after_deactivate)
  /\ update_user_role 2 (UserUpdateRole.mk ADMIN) root sample_db
     = (Return (UserDB.with_role "admin" alice),
        mkDatabase [root; UserDB.with_role "admin" alice; carol]
                   [alice_note; carol_note] []).
Proof.
  destruct (X16_admin_updates_rewrite_one_column_of_one_row sample_crypt 2
              root alice sample_db
              (user_ids_unique sample_db sample_db_consistent) eq_refl
              (or_intror (or_introl eq_refl)) eq_refl)
    as [Hoff [_ Hrole]].
  split; [exact Hoff | exact (Hrole (UserUpdateRole.mk ADMIN))].
Defined.

(** ** What a password reset and a deletion do to credentials *)

Lemma api_key_lookup_accepts now db u k :
  consistent db -> In u (users db) -> UserDB.api_key u = Some k -> k <> "" ->
  UserDB.is_active u = true ->
  get_current_user now None (Some k) db = (Return u, db).
Proof.
  intros Hok Hin Hkey Hk Hact.
  apply api_key_path_accepts; try assumption; [reflexivity|].
  apply (api_keys_unique db Hok).
Qed.

(** X17.  A password reset revokes nothing.  After an admin resets the
    password of an active user, the user's API key is the same and still
    resolves to the user, every token that decodes with the user's name as
    subject still resolves, and login accepts the new password. *)
Theorem X17_password_reset_keeps_key_and_tokens
    (crypt : CryptContext) (user_id : Z) (new_password : string)
    (rnd : Entropy) (current_user u0 : UserDB.row) (db : Database)
    (now : datetime) :
  consistent db ->
  UserDB.role current_user = RoleEnum.value ADMIN ->
  In u0 (users db) -> UserDB.id u0 = user_id -> UserDB.is_active u0 = true ->
  exists U db',
    reset_password user_id new_password rnd current_user db = (Return U, db')
    /\ UserDB.api_key U = UserDB.api_key u0
    /\ UserDB.username U = UserDB.username u0
    /\ (forall k, UserDB.api_key u0 = Some k -> k <> "" ->
          get_current_user now None (Some k) db' = (Return U, db'))
    /\ (forall tok payload api_key,
          pyjwt.decode now tok SECRET_KEY [ALGORITHM] = pyjwt.Payload payload ->
          pyjwt.sub payload = Some (UserDB.username u0) ->
          get_current_user now (Some tok) api_key db' = (Return U, db'))
    /\ (exists r,
          login_for_access_token now (UserDB.username u0) new_password db'
            = (Return r, db')
          /\ login_api_key r = UserDB.api_key u0).
Proof.
  intros Hok Hrole Hin Hid Hact.
  assert (Hgate : is_not_admin current_user = false).
  { unfold is_not_admin, ADMIN_value. now rewrite Hrole. }
  pose proof (user_lookup_by_id db u0 user_id (user_ids_unique db Hok) Hin Hid)
    as Hfind.
  set (U := UserDB.with_hashed_password
              (get_password_hash rnd new_password) u0).
  assert (Hrun : reset_password user_id new_password rnd current_user db
                 = (Return U, snd (commit_user U db))).
  { unfold reset_password, bind, query_users. now rewrite Hgate, Hfind. }
  assert (Hok' : consistent (snd (commit_user U db))).
  { apply (commit_user_consistent db u0 U Hok Hin); reflexivity. }
  assert (HinU : In U (users (snd (commit_user U db)))).
  { apply (commit_user_stored db u0 U Hin). reflexivity. }
  exists U, (snd (commit_user U db)).
  split; [exact Hrun | split; [reflexivity | split; [reflexivity|]]].
  split; [|split].
  - intros k Hkey Hk. now apply api_key_lookup_accepts.
  - intros tok payload api_key Hdec Hsub.
    apply (get_current_user_decoded now tok api_key _ payload
             (UserDB.username u0) U); try assumption; try reflexivity.
    apply (usernames_unique _ Hok').
  - eexists. split.
    + apply (login_success now (UserDB.username u0) new_password _ U);
        [apply (usernames_unique _ Hok') | exact HinU | reflexivity |].
      unfold U, get_password_hash. simpl. apply verify_hash.
    + reflexivity.
Qed.

Lemma X17_witness :
  exists U db',
    reset_password (H := sample_crypt) 2 "fresh" dave_entropy root sample_db
      = (Return U, db')
    /\ UserDB.hashed_password U = "$fresh"
    /\ get_current_user 0 None (Some "key-alice") db' = (Return U, db')
    /\ get_current_user 0 (Some (token_for "alice" 0)) None db' = (Return U, db').
Proof.
  destruct (X17_password_reset_keeps_key_and_tokens sample_crypt 2 "fresh"
              dave_entropy root alice sample_db 0 sample_db_consistent eq_refl
              (or_intror (or_introl eq_refl)) eq_refl eq_refl)
    as [U [db' [Hrun [_ [_ [Hkey [Htok _]]]]]]].
  exists U, db'. split; [exact Hrun|].
  split.
  { revert Hrun. unfold reset_password, bind, query_users. simpl.
    intros E. injection E as <- _. reflexivity. }
  split.
  - apply Hkey; [reflexivity | discriminate].
  - apply (Htok (token_for "alice" 0)
                (pyjwt.mkClaims (Some "alice") (Some 1800))); reflexivity.
Defined.

Lemma deleted_name_is_gone (db : Database) (deleted : UserDB.row) :
  consistent db -> In deleted (users db) ->
  forall y, In y (users (snd (delete_user_row deleted db))) ->
            UserDB.username y <> UserDB.username deleted
            /\ (forall k, UserDB.api_key deleted = Some k ->
                          UserDB.api_key y <> Some k).
Proof.
  intros Hok Hin y Hy. unfold delete_user_row in Hy. simpl in Hy.
  apply filter_In in Hy. destruct Hy as [Hy Hne].
  apply negb_true_iff, Z.eqb_neq in Hne. split.
  - intros E. apply Hne. f_equal.
    apply (NoDup_map_eq UserDB.username (users db)); auto.
    apply (usernames_unique db Hok).
  - intros k Hk E. apply Hne. f_equal.
    apply (api_keys_eq (users db) y deleted k); auto.
    apply (api_keys_unique db Hok).
Qed.

(** X18.  Deleting a user kills its credentials: a token that decodes with
    the deleted username as subject is refused with 401 and the deleted
    user's API key with 403.  But tokens name their subject by username
    only: once someone registers under the same username, every such token
    that still decodes resolves to the newcomer. *)
Theorem X18_tokens_follow_the_username_across_deletion
    (crypt : CryptContext) (user_name : string) (admin deleted : UserDB.row)
    (db db' : Database) (now : datetime) :
  consistent db ->
  delete_user user_name admin db = (Return deleted, db') ->
  (forall tok payload api_key,
     pyjwt.decode now tok SECRET_KEY [ALGORITHM] = pyjwt.Payload payload ->
     pyjwt.sub payload = Some user_name ->
     get_current_user now (Some tok) api_key db'
     = (Raise (HTTPException 401 "Invalid authentication credentials"), db'))
  /\ (forall k, UserDB.api_key deleted = Some k -> k <> "" ->
        get_current_user now None (Some k) db'
        = (Raise (HTTPException 403 "Could not validate API key"), db'))
  /\ (forall user rnd newcomer db'' tok payload api_key,
        UserCreate.username user = user_name ->
        register_user user rnd db' = (Return newcomer, db'') ->
        pyjwt.decode now tok SECRET_KEY [ALGORITHM] = pyjwt.Payload payload ->
        pyjwt.sub payload = Some user_name ->
        get_current_user now (Some tok) api_key db'' = (Return newcomer, db'')).
Proof.
  intros Hok Hrun.
  destruct (delete_user_success _ _ _ _ _ Hrun) as [Hin [Hname Hdb']].
  pose proof (deleted_name_is_gone db deleted Hok Hin) as Hgone.
  rewrite <- Hdb' in Hgone.
  assert (Hok' : consistent db').
  { rewrite Hdb'. now apply delete_user_row_consistent. }
  split; [|split].
  - intros tok payload api_key Hdec Hsub. unfold get_current_user.
    rewrite (truthy_token_Some tok (decoded_nonempty _ _ _ _ _ Hdec)).
    rewrite Hdec, Hsub. unfold bind, query_users.
    rewrite user_lookup_absent; [reflexivity|].
    intros y Hy. apply String.eqb_neq. rewrite <- Hname.
    apply (Hgone y Hy).
  - intros k Hkey Hk. apply api_key_path_rejects; [reflexivity | exact Hk|].
    intros u Hu Hku. now destruct (proj2 (Hgone u Hu) k Hkey).
  - intros user rnd newcomer db'' tok payload api_key Huser Hreg Hdec Hsub.
    pose proof (register_user_consistent user rnd db' Hok') as Hok''.
    rewrite Hreg in Hok''. simpl in Hok''.
    destruct (register_user_success _ _ _ _ _ Hreg)
      as [Hnew [_ [_ [Hact Hdb'']]]].
    apply (get_current_user_decoded now tok api_key db'' payload user_name
             newcomer); try assumption.
    + apply (usernames_unique db'' Hok'').
    + rewrite Hdb''. simpl. apply in_or_app. right. now left.
    + congruence.
Qed.

Lemma X18_witness :
  let db' := snd (delete_user "alice" root sample_db) in
  let again :=
    UserCreate.mk "alice" "Another Alice" "a2@example.org" "pw" USER in
  let newcomer :=
    UserDB.mk 4 "alice" "Another Alice" "a2@example.org" "$pw" "user" true
              (Some "key-a2") in
  let db'' := mkDatabase [root; carol; newcomer] [alice_note; carol_note] [] in
  get_current_user 60 (Some (token_for "alice" 0)) None db'
    = (Raise (HTTPException 401 "Invalid authentication credentials"), db')
  /\ get_current_user 60 None (Some "key-alice") db'
     = (Raise (HTTPException 403 "Could not validate API key"), db')
  /\ get_current_user 60 (Some (token_for "alice" 0)) None db''
     = (Return newcomer, db'').
Proof.
  intros db' again newcomer db''.
  destruct (X18_tokens_follow_the_username_across_deletion sample_crypt
              "alice" root alice sample_db db' 60 sample_db_consistent eq_refl)
    as [Htok [Hkey Hagain]].
  split; [|split].
  - apply (Htok (token_for "alice" 0)
                (pyjwt.mkClaims (Some "alice") (Some 1800))); reflexivity.
  - apply Hkey; [reflexivity | discriminate].
  - apply (Hagain again (mkEntropy "salt" "key-a2") newcomer db''
                  (token_for "alice" 0)
                  (pyjwt.mkClaims (Some "alice") (Some 1800)));
      reflexivity.
Defined.

(** ** Admins acting on themselves *)

(** X19.  Nothing stops an admin from acting on its own account: a stored
    admin can deactivate itself, demote itself to plain user and delete
    itself, and each call succeeds.  After the deletion the account is
    gone from the table. *)
Theorem X19_an_admin_can_remove_its_own_powers
    (a : UserDB.row) (db : Database) :
  consistent db -> In a (users db) ->
  UserDB.role a = RoleEnum.value ADMIN ->
  fst (deactivate_user (UserDB.id a) a db)
    = Return (UserDB.with_is_active false a)
  /\ fst (update_user_role (UserDB.id a) (UserUpdateRole.mk USER) a db)
     = Return (UserDB.with_role (RoleEnum.value USER) a)
  /\ fst (delete_user (UserDB.username a) a db) = Return a
  /\ ~ In a (users (snd (delete_user (UserDB.username a) a db))).
Proof.
  intros Hok Hin Hrole.
  assert (Hgate : is_not_admin a = false).
  { unfold is_not_admin, ADMIN_value. now rewrite Hrole. }
  pose proof (user_lookup_by_id db a (UserDB.id a) (user_ids_unique db Hok)
                Hin eq_refl) as Hid.
  pose proof (user_lookup_by_name db a (UserDB.username a)
                (usernames_unique db Hok) Hin eq_refl) as Hname.
  split; [|split; [|split]].
  - unfold deactivate_user, bind, query_users. now rewrite Hgate, Hid.
  - unfold update_user_role, bind, query_users. now rewrite Hgate, Hid.
  - unfold delete_user, bind, query_users. now rewrite Hgate, Hname.
  - unfold delete_user, bind, query_users. rewrite Hgate, Hname. simpl.
    rewrite filter_In, Z.eqb_refl. simpl. intros [_ E]. discriminate.
Qed.

Lemma X19_witness :
  fst (delete_user "root" root sample_db) = Return root
  /\ users (snd (delete_user "root" root sample_db)) = [alice; carol].
Proof.
  split; [|reflexivity].
  apply (X19_an_admin_can_remove_its_own_powers root sample_db
           sample_db_consistent (or_introl eq_refl) eq_refl).
Defined.

(** ** The request log *)

(** X20.  Once a response exists, the logging middleware appends exactly
    one entry, with the request's path and method and the response's
    status, under an id above every id in use; earlier entries, users and
    notes are untouched.  The username it records comes from the token
    alone: the subject of a token that decodes, whether or not such a user
    is stored or active, and nothing when there is no Authorization header
    or the token does not decode (malformed, wrongly signed, expired); an
    API key plays no part. *)
Theorem X20_log_requests_appends_one_entry_named_by_the_token
    (now : datetime) (request : Request) (response_status_code : Z)
    (db : Database) :
  exists entry,
    log_requests now request response_status_code db
      = (Return response_status_code,
         mkDatabase (users db) (notes db) (logs db ++ [entry]))
    /\ LogDB.endpoint entry = url_path request
    /\ LogDB.method entry = http_method request
    /\ LogDB.status_code entry = response_status_code
    /\ LogDB.timestamp entry = now
    /\ (forall e, In e (logs db) -> LogDB.id e < LogDB.id entry)
    /\ (forall tok payload,
          authorization request = Some tok ->
          pyjwt.decode now tok SECRET_KEY [ALGORITHM] = pyjwt.Payload payload ->
          LogDB.username entry = pyjwt.sub payload)
    /\ (authorization request = None -> LogDB.username entry = None)
    /\ (forall tok,
          authorization request = Some tok ->
          (forall payload,
             pyjwt.decode now tok SECRET_KEY [ALGORITHM]
               <> pyjwt.Payload payload) ->
          LogDB.username entry = None).
Proof.
  eexists. split; [reflexivity|].
  repeat (split; [reflexivity|]).
  split.
  { intros e He. simpl. apply next_id_above. now apply in_map. }
  simpl. split; [|split].
  - intros tok payload Hauth Hdec. rewrite Hauth.
    rewrite (truthy_token_Some tok (decoded_nonempty _ _ _ _ _ Hdec)).
    now rewrite Hdec.
  - intros Hauth. now rewrite Hauth.
  - intros tok Hauth Hbad. rewrite Hauth. simpl.
    destruct (pyjwt.nonempty tok); [|reflexivity].
    destruct (pyjwt.decode now tok SECRET_KEY [ALGORITHM]) as [payload| |]
      eqn:Hdec; try reflexivity.
    now destruct (Hbad payload).
Qed.

(** ** Deactivating twice *)

Lemma with_is_active_twice (b : bool) (u : UserDB.row) :
  UserDB.with_is_active b (UserDB.with_is_active b u) = UserDB.with_is_active b u.
Proof. reflexivity. Qed.

Lemma commit_user_ids (u : UserDB.row) (db : Database) :
  map UserDB.id (users (snd (commit_user u db))) = map UserDB.id (users db).
Proof.
  unfold commit_user. cbn [snd users]. apply map_replace_same.
  intros r _. destruct (Z.eqb_spec (UserDB.id r) (UserDB.id u)) as [E|E];
    [symmetry; exact E | reflexivity].
Qed.

Lemma commit_user_twice (u : UserDB.row) (db : Database) :
  commit_user u (snd (commit_user u db)) = commit_user u db.
Proof.
  unfold commit_user. cbn [snd users notes logs]. f_equal. f_equal.
  rewrite map_map. apply map_ext. intros r.
  destruct (Z.eqb_spec (UserDB.id r) (UserDB.id u)) as [E|E].
  - now rewrite Z.eqb_refl.
  - now rewrite (proj2 (Z.eqb_neq _ _) E).
Qed.

(** X21.  Deactivation is idempotent: running it again with the same
    arguments gives the same outcome as the first run and leaves the state
    the first run produced. *)
Theorem X21_deactivate_user_is_idempotent
    (user_id : Z) (current_user : UserDB.row) (db : Database) :
  NoDup (map UserDB.id (users db)) ->
  deactivate_user user_id current_user
                  (snd (deactivate_user user_id current_user db))
  = (fst (deactivate_user user_id current_user db),
     snd (deactivate_user user_id current_user db)).
Proof.
  intros Hnd.
  destruct (deactivate_user user_id current_user db) as [o db1] eqn:Hrun.
  cbn [fst snd]. unfold deactivate_user in Hrun |- *.
  destruct (is_not_admin current_user) eqn:Hgate.
  { unfold raise in *. injection Hrun as <- <-. reflexivity. }
  unfold bind, query_users in Hrun |- *.
  destruct (first (filter (fun u => Z.eqb (UserDB.id u) user_id) (users db)))
    as [u0|] eqn:Hf.
  2:{ unfold raise in *. injection Hrun as <- <-. now rewrite Hf. }
  apply first_filter_Some in Hf. destruct Hf as [Hin Hid].
  apply Z.eqb_eq in Hid.
  remember (UserDB.with_is_active false u0) as U eqn:HU.
  assert (HidU : UserDB.id U = user_id) by (now rewrite HU).
  assert (Hdb1 : db1 = snd (commit_user U db)) by (now rewrite Hrun).
  assert (Ho : o = Return U) by (unfold commit_user in Hrun; congruence).
  assert (Hnd' : NoDup (map UserDB.id (users db1))).
  { rewrite Hdb1, commit_user_ids. exact Hnd. }
  assert (HinU : In U (users db1)).
  { rewrite Hdb1. apply (commit_user_stored db u0 U Hin). now rewrite HU. }
  rewrite (user_lookup_by_id db1 U user_id Hnd' HinU HidU).
  assert (HUU : UserDB.with_is_active false U = U)
    by (rewrite HU; apply with_is_active_twice).
  rewrite HUU, Hdb1, commit_user_twice, Ho. reflexivity.
Qed.

Lemma X21_witness :
  deactivate_user 2 root sample_after_deactivate
  = (Return (UserDB.with_is_active false alice), sample_after_deactivate).
Proof.
  apply (X21_deactivate_user_is_idempotent 2 root sample_db
           (user_ids_unique sample_db sample_db_consistent)).
Defined.

(** ** Stored roles *)

Lemma of_value_of_value (r : Role) :
  RoleEnum.of_value (RoleEnum.value r) = Some r.
Proof. destruct r; reflexivity. Qed.

Lemma User_validate_total (u : UserDB.row) :
  RoleEnum.of_value (UserDB.role u) <> None ->
  exists v, User_validate u = Some v.
Proof.
  intros Hrole. unfold User_validate.
  destruct (RoleEnum.of_value (UserDB.role u)); [eauto | contradiction].
Qed.

Lemma validate_all_total (rows : list UserDB.row) :
  (forall u, In u rows -> RoleEnum.of_value (UserDB.role u) <> None) ->
  exists vs, validate_all User_validate rows = Some vs.
Proof.
  induction rows as [|r rows IH]; simpl; intros Hall; [eauto|].
  destruct (User_validate_total r) as [v Hv]; [apply Hall; now left|].
  destruct IH as [vs Hvs]; [intros u Hu; apply Hall; now right|].
  rewrite Hv, Hvs. eauto.
Qed.

Lemma commit_user_roles_valid (u : UserDB.row) (db : Database) :
  roles_valid db -> RoleEnum.of_value (UserDB.role u) <> None ->
  roles_valid (snd (commit_user u db)).
Proof.
  intros Hdb Hu x Hx. unfold commit_user in Hx. cbn [snd users] in Hx.
  apply in_map_iff in Hx. destruct Hx as [r [Hr Hin]].
  destruct (Z.eqb (UserDB.id r) (UserDB.id u)); subst x; auto.
Qed.

Lemma response_model_answers {R V} (validate : R -> option V) (h : Handler R)
    (db db' : Database) (r : R) (v : V) :
  h db = (Return r, db') -> validate r = Some v ->
  response_model validate h db = (Return v, db').
Proof.
  intros Hrun Hv. unfold response_model, bind. now rewrite Hrun, Hv.
Qed.

Lemma register_user_roles_valid {crypt : CryptContext} user rnd db :
  roles_valid db -> roles_valid (snd (register_user user rnd db)).
Proof.
  intros Hdb.
  destruct (register_user user rnd db) as [[new|e] db'] eqn:Hrun; simpl.
  - destruct (register_user_success _ _ _ _ _ Hrun) as [_ [_ [Hr [_ Hdb']]]].
    rewrite Hdb'. intros u Hu. simpl in Hu. apply in_app_or in Hu.
    destruct Hu as [Hu | [<- | []]]; [now apply Hdb|].
    rewrite Hr, of_value_of_value. discriminate.
  - revert Hrun. unfold register_user, bind, query_users.
    destruct (first _); [intros E; injection E as _ <-; exact Hdb|].
    unfold add_user. destruct (existsb _ _); [|discriminate].
    intros E; injection E as _ <-; exact Hdb.
Qed.

Lemma admin_update_roles_valid (f : UserDB.row -> UserDB.row) user_id db :
  (forall u, RoleEnum.of_value (UserDB.role u) <> None ->
             RoleEnum.of_value (UserDB.role (f u)) <> None) ->
  roles_valid db ->
  roles_valid
    (snd ((found <- query_users (fun u => Z.eqb (UserDB.id u) user_id) ;;
           match first found with
           | None => raise user_not_found
           | Some user => commit_user (f user)
           end) db)).
Proof.
  intros Hf Hdb. unfold bind, query_users.
  destruct (first _) as [u0|] eqn:Hfind; [|exact Hdb].
  apply first_filter_Some in Hfind. destruct Hfind as [Hin _].
  apply commit_user_roles_valid; [exact Hdb|]. apply Hf. now apply Hdb.
Qed.

(** X22.  Roles are only ever stored from the enum (at registration and
    at a role change), so the property that every stored role is "admin"
    or "user" is kept by every handler that writes users.  In such a state
    no user route can fail on its response: whenever the handler returns a
    row, or the list, the route answers with the view of it. *)
Theorem X22_stored_roles_stay_valid_and_user_answers_validate
    (crypt : CryptContext) (now : datetime) (c : Credentials)
    (current_user : UserDB.row) (db : Database) :
  roles_valid db ->
  (forall user rnd user_id new_password body user_name db',
     db' = snd (register_user user rnd db)
     \/ db' = snd (deactivate_user user_id current_user db)
     \/ db' = snd (reset_password user_id new_password rnd current_user db)
     \/ db' = snd (update_user_role user_id body current_user db)
     \/ db' = snd (delete_user user_name current_user db) ->
     roles_valid db')
  /\ (forall user rnd r db',
        register_user user rnd db = (Return r, db') ->
        exists v, POST_register user rnd db = (Return v, db'))
  /\ (forall rows db',
        authenticated now c get_all_users db = (Return rows, db') ->
        exists vs, GET_users now c db = (Return vs, db'))
  /\ (forall user_id r db',
        authenticated now c (deactivate_user user_id) db = (Return r, db') ->
        exists v, PUT_users_deactivate now c user_id db = (Return v, db'))
  /\ (forall user_id new_password rnd r db',
        authenticated now c (reset_password user_id new_password rnd) db
          = (Return r, db') ->
        exists v, PUT_users_reset_password now c user_id new_password rnd db
                  = (Return v, db'))
  /\ (forall user_id body r db',
        authenticated now c (update_user_role user_id body) db
          = (Return r, db') ->
        exists v, PUT_users_update_role now c user_id body db = (Return v, db'))
  /\ (forall user_name r db',
        authenticated now c (delete_user user_name) db = (Return r, db') ->
        exists v, DELETE_users now c user_name db = (Return v, db')).
Proof.
  intros Hdb.
  split.
  { intros user rnd user_id new_password body user_name db'
           [-> | [-> | [-> | [-> | ->]]]].
    - now apply register_user_roles_valid.
    - unfold deactivate_user.
      destruct (is_not_admin current_user); [exact Hdb|].
      now apply (admin_update_roles_valid (UserDB.with_is_active false)).
    - unfold reset_password.
      destruct (is_not_admin current_user); [exact Hdb|].
      now apply (admin_update_roles_valid
                   (UserDB.with_hashed_password
                      (get_password_hash rnd new_password))).
    - unfold update_user_role.
      destruct (is_not_admin current_user); [exact Hdb|].
      apply (admin_update_roles_valid
               (UserDB.with_role (RoleEnum.value (UserUpdateRole.role body))));
        [|exact Hdb].
      intros u _. simpl. rewrite of_value_of_value. discriminate.
    - unfold delete_user.
      destruct (is_not_admin current_user); [exact Hdb|].
      unfold bind, query_users. destruct (first _) as [u0|]; [|exact Hdb].
      simpl. intros u Hu. apply filter_In in Hu. now apply Hdb. }
  split.
  { intros user rnd r db' Hrun.
    destruct (register_user_success _ _ _ _ _ Hrun) as [_ [_ [Hr _]]].
    destruct (User_validate_total r) as [v Hv].
    - rewrite Hr, of_value_of_value. discriminate.
    - exists v. now apply (response_model_answers User_validate _ db db' r v). }
  split.
  { intros rows db' Hrun.
    destruct (authenticated_Return _ _ _ _ _ _ Hrun) as [cu [_ Hh]].
    destruct (get_all_users_success _ _ _ _ Hh) as [-> _].
    destruct (validate_all_total (users db) Hdb) as [vs Hvs].
    exists vs.
    now apply (response_model_answers (validate_all User_validate) _ db db'
                 (users db) vs). }
  split.
  { intros user_id r db' Hrun.
    destruct (authenticated_Return _ _ _ _ _ _ Hrun) as [cu [_ Hh]].
    destruct (deactivate_user_success _ _ _ _ _ Hh) as [u0 [Hin [_ [Hr _]]]].
    destruct (User_validate_total r) as [v Hv].
    - rewrite Hr. simpl. now apply Hdb.
    - exists v. now apply (response_model_answers User_validate _ db db' r v). }
  split.
  { intros user_id new_password rnd r db' Hrun.
    destruct (authenticated_Return _ _ _ _ _ _ Hrun) as [cu [_ Hh]].
    destruct (reset_password_success _ _ _ _ _ _ _ Hh)
      as [u0 [Hin [_ [Hr _]]]].
    destruct (User_validate_total r) as [v Hv].
    - rewrite Hr. simpl. now apply Hdb.
    - exists v. now apply (response_model_answers User_validate _ db db' r v). }
  split.
  { intros user_id body r db' Hrun.
    destruct (authenticated_Return _ _ _ _ _ _ Hrun) as [cu [_ Hh]].
    destruct (update_user_role_success _ _ _ _ _ _ Hh)
      as [u0 [Hin [_ [Hr _]]]].
    destruct (User_validate_total r) as [v Hv].
    - rewrite Hr. simpl. rewrite of_value_of_value. discriminate.
    - exists v. now apply (response_model_answers User_validate _ db db' r v). }
  intros user_name r db' Hrun.
  destruct (authenticated_Return _ _ _ _ _ _ Hrun) as [cu [_ Hh]].
  destruct (delete_user_success _ _ _ _ _ Hh) as [Hin _].
  destruct (User_validate_total r) as [v Hv]; [now apply Hdb|].
  exists v. now apply (response_model_answers User_validate _ db db' r v).
Qed.

Lemma sample_roles_valid : roles_valid sample_db.
Proof. intros u [<- | [<- | [<- | []]]]; simpl; discriminate. Qed.

Lemma X22_witness :
  roles_valid (snd (update_user_role 2 (UserUpdateRole.mk ADMIN) root sample_db))
  /\ exists vs, GET_users 60 root_credentials sample_db = (Return vs, sample_db).
Proof.
  destruct (X22_stored_roles_stay_valid_and_user_answers_validate sample_crypt
              60 root_credentials root sample_db sample_roles_valid)
    as [Hkeep [_ [Hlist _]]].
  split.
  - apply (Hkeep dave_form dave_entropy 2 "pw" (UserUpdateRole.mk ADMIN) "x").
    right. right. right. left. reflexivity.
  - apply (Hlist (users sample_db)). reflexivity.
Defined.

(** ** Reading the log *)

(** X23.  What the middleware logs is what an admin reads: after a request
    is logged, the log route gives an admin the earlier entries in their
    order followed by the new entry, and gives anyone else 403. *)
Theorem X23_an_admin_reads_the_log_in_order
    (now : datetime) (request : Request) (response_status_code : Z)
    (viewer : UserDB.row) (db : Database) :
  exists entry db',
    log_requests now request response_status_code db
      = (Return response_status_code, db')
    /\ db' = mkDatabase (users db) (notes db) (logs db ++ [entry])
    /\ LogDB.status_code entry = response_status_code
    /\ (UserDB.role viewer = RoleEnum.value ADMIN ->
        get_logs viewer db' = (Return (logs db ++ [entry])%list, db'))
    /\ (UserDB.role viewer <> RoleEnum.value ADMIN ->
        get_logs viewer db'
        = (Raise (HTTPException 403 "Not enough permissions"), db')).
Proof.
  eexists. eexists. split; [reflexivity|].
  split; [reflexivity|]. split; [reflexivity|].
  unfold get_logs, is_not_admin, ADMIN_value. split; intros Hrole.
  - now rewrite (proj2 (String.eqb_eq _ _) Hrole).
  - now rewrite (proj2 (String.eqb_neq _ _) Hrole).
Qed.
